(** * atom/service.py: the Atom Publishing Protocol transport client

    A shallow embedding of [atom.service] (class [AtomService] and the module
    functions [DictionaryToParamList] and [BuildUri]) together with the parts
    of the Python 2 standard library it calls ([re], [urllib.quote_plus],
    [base64.encodestring], [str.strip], [str.find], [dict]), followed by the
    properties of the module.

    Python [str] values are byte strings and are modelled by [string];
    [dict] objects are [gmap]s living in a heap of mutable objects, so that
    aliasing between a caller's dict and the client's is visible. *)

From Stdlib Require Import ZArith NArith Ascii String Lia.
From stdpp Require Import base option list gmap strings.

Local Open Scope string_scope.

(** ** Python 2 built-ins on [str] *)

Module Py.

(** The exceptions the module can meet. *)
Inductive exn : Type :=
  | TypeError
  | ValueError
  | StrError          (* raised by an object's own [__str__] *)
  | ReferenceError    (* a reference to no object *)
  | socket_error.

(** The outcome of a call: a value or a raised exception. *)
Inductive result (A : Type) : Type :=
  | Ok (a : A)
  | Raise (e : exn).
Arguments Ok {A} a.
Arguments Raise {A} e.

(** [c in s] for a one-character [c]. *)
Fixpoint contains (c : ascii) (s : string) : bool :=
  match s with
  | EmptyString => false
  | String c' s' => if Ascii.eqb c c' then true else contains c s'
  end.

(** [''.join(map(f, s))]. *)
Fixpoint join_map (f : ascii -> string) (s : string) : string :=
  match s with
  | EmptyString => EmptyString
  | String c s' => f c +:+ join_map f s'
  end.

(** [s.replace(a, b)] for one-character [a] and [b]. *)
Fixpoint replace (a b : ascii) (s : string) : string :=
  match s with
  | EmptyString => EmptyString
  | String c s' => String (if Ascii.eqb c a then b else c) (replace a b s')
  end.

(** [s.find(c)] for a one-character [c]: the lowest index of [c] in [s],
    or [-1]. *)
Fixpoint find_from (i : Z) (c : ascii) (s : string) : Z :=
  match s with
  | EmptyString => (-1)%Z
  | String c' s' => if Ascii.eqb c' c then i else find_from (i + 1)%Z c s'
  end.

Definition find (s : string) (c : ascii) : Z := find_from 0%Z c s.

(** [sep.join(l)]. *)
Definition join (sep : string) (l : list string) : string :=
  String.concat sep l.

(** [string.whitespace]: the characters removed by [str.strip()]. *)
Definition isspace (c : ascii) : bool :=
  let n := N_of_ascii c in
  ((9 <=? n) && (n <=? 13) || (n =? 32))%N.

Fixpoint lstrip (s : string) : string :=
  match s with
  | EmptyString => EmptyString
  | String c s' => if isspace c then lstrip s' else s
  end.

(** [rstrip] keeps a character when it is not a space or when something
    survives to its right. *)
Fixpoint rstrip (s : string) : string :=
  match s with
  | EmptyString => EmptyString
  | String c s' =>
      match rstrip s' with
      | EmptyString => if isspace c then EmptyString else String c EmptyString
      | r => String c r
      end
  end.

Definition strip (s : string) : string := rstrip (lstrip s).

(** A character that [strip] leaves in place. *)
Definition printable (c : ascii) : bool := negb (isspace c).

(** [int(s)] on a string of decimal digits. *)
Definition digit_value (c : ascii) : Z := (Z.of_N (N_of_ascii c) - 48)%Z.

Fixpoint int_from (acc : Z) (s : string) : Z :=
  match s with
  | EmptyString => acc
  | String c s' => int_from (10 * acc + digit_value c)%Z s'
  end.

Fixpoint all_chars (p : ascii -> bool) (s : string) : bool :=
  match s with
  | EmptyString => true
  | String c s' => p c && all_chars p s'
  end.

Definition isdigit (c : ascii) : bool :=
  let n := N_of_ascii c in ((48 <=? n) && (n <=? 57))%N.

(** [int(x)] for [x] a group of a match object: [None] is a [TypeError],
    a string that is not a run of decimal digits a [ValueError]. *)
Definition int (x : option string) : result Z :=
  match x with
  | None => Raise TypeError
  | Some EmptyString => Raise ValueError
  | Some s => if all_chars isdigit s then Ok (int_from 0%Z s)
              else Raise ValueError
  end.

(** The line feed character. *)
Definition newline : ascii := "010"%char.

(** [s[:n]] and [s[n:]]. *)
Fixpoint take (n : nat) (s : string) : string :=
  match n, s with
  | S n', String c s' => String c (take n' s')
  | _, _ => EmptyString
  end.

Fixpoint drop (n : nat) (s : string) : string :=
  match n, s with
  | S n', String _ s' => drop n' s'
  | _, _ => s
  end.

End Py.

(** ** urllib.quote_plus *)

Module urllib.

Definition always_safe : string :=
  "ABCDEFGHIJKLMNOPQRSTUVWXYZabcdefghijklmnopqrstuvwxyz0123456789_.-".

Definition hex_digit (n : N) : ascii :=
  match String.get (N.to_nat n) "0123456789ABCDEF" with
  | Some c => c
  | None => "0"%char
  end.

(** ['%%%02X' % ord(c)]. *)
Definition percent (c : ascii) : string :=
  let n := N_of_ascii c in
  String "%"
    (String (hex_digit (n / 16))
       (String (hex_digit (n mod 16)) EmptyString)).

(** [quote(s, safe)]: every character outside [always_safe + safe] becomes
    its percent escape. *)
Definition quote (s safe : string) : string :=
  Py.join_map
    (fun c => if Py.contains c (safe +:+ always_safe)
              then String c EmptyString else percent c) s.

(** [quote_plus(s, safe)]: as [quote], with spaces turned into plus signs. *)
Definition quote_plus (s safe : string) : string :=
  if Py.contains " " s
  then Py.replace " " "+" (quote s (safe +:+ " "))
  else quote s safe.

End urllib.

(** ** base64.encodestring *)

Module base64.

Definition alphabet : string :=
  "ABCDEFGHIJKLMNOPQRSTUVWXYZabcdefghijklmnopqrstuvwxyz0123456789+/".

Definition b64_char (n : N) : ascii :=
  match String.get (N.to_nat n) alphabet with
  | Some c => c
  | None => "="%char
  end.

(** The base64 text of a byte string, three bytes to four characters,
    padded with [=]. *)
Fixpoint b64 (s : string) : string :=
  match s with
  | EmptyString => EmptyString
  | String a EmptyString =>
      let x := N_of_ascii a in
      String (b64_char (x / 4))
        (String (b64_char ((x mod 4) * 16)) "==")
  | String a (String b EmptyString) =>
      let x := N_of_ascii a in
      let y := N_of_ascii b in
      String (b64_char (x / 4))
        (String (b64_char ((x mod 4) * 16 + y / 16))
           (String (b64_char ((y mod 16) * 4)) "="))
  | String a (String b (String c rest)) =>
      let x := N_of_ascii a in
      let y := N_of_ascii b in
      let z := N_of_ascii c in
      String (b64_char (x / 4))
        (String (b64_char ((x mod 4) * 16 + y / 16))
           (String (b64_char ((y mod 16) * 4 + z / 64))
              (String (b64_char (z mod 64)) (b64 rest))))
  end.

(** [binascii.b2a_base64]: one line of base64 text and its newline. *)
Definition b2a_base64 (s : string) : string :=
  b64 s +:+ String Py.newline EmptyString.

Definition MAXLINESIZE : nat := 76.
Definition MAXBINSIZE : nat := (MAXLINESIZE / 4) * 3.

(** The loop [for i in range(0, len(s), MAXBINSIZE)] of [encodestring],
    run on what is left of the input; every pass takes a non-empty chunk,
    so [String.length s] passes are enough. *)
Fixpoint encode_pieces (fuel : nat) (s : string) : string :=
  match fuel with
  | O => EmptyString
  | S fuel' =>
      match s with
      | EmptyString => EmptyString
      | _ => b2a_base64 (Py.take MAXBINSIZE s)
               +:+ encode_pieces fuel' (Py.drop MAXBINSIZE s)
      end
  end.

Definition encodestring (s : string) : string :=
  encode_pieces (String.length s) s.

End base64.

(** ** re: a backtracking matcher with capture groups *)

Module re.

(** The fragment of the pattern language that [URL_REGEX] is written in.
    Repetition is applied to character classes only. *)
Inductive pattern : Type :=
  | Eps
  | Lit (c : ascii)
  | Seq (p q : pattern)
  | Opt (p : pattern)
  | Star (cls : ascii -> bool)
  | Plus (cls : ascii -> bool)
  | Group (n : nat) (p : pattern).

(** A literal run of characters. *)
Fixpoint text (s : string) : pattern :=
  match s with
  | EmptyString => Eps
  | String c s' => Seq (Lit c) (text s')
  end.

(** [\d], [\w] (no LOCALE, no UNICODE flag) and [.]. *)
Definition is_digit (c : ascii) : bool := Py.isdigit c.

Definition is_word (c : ascii) : bool :=
  let n := N_of_ascii c in
  ((48 <=? n) && (n <=? 57) || (65 <=? n) && (n <=? 90)
   || (97 <=? n) && (n <=? 122) || (n =? 95))%N.

Definition is_dot (c : ascii) : bool := negb (Ascii.eqb c Py.newline).

(** What a match object knows: the text of every group that took part. *)
Abbreviation match_object := (gmap nat string) (only parsing).

(** The text between the start [s] of a group and what is left, [s'],
    when the group closes. *)
Definition consumed (s s' : string) : string :=
  Py.take (String.length s - String.length s') s.

(** A string on which a run over [cls] cannot go on. *)
Definition stops (cls : ascii -> bool) (s : string) : bool :=
  match s with
  | EmptyString => true
  | String c _ => negb (cls c)
  end.

Section Matcher.
Context {A : Type}.

(** Greedy repetition over a class: the longest run first, one
    character less on failure of the continuation. *)
Fixpoint star (cls : ascii -> bool) (s : string)
    (k : string -> option A) : option A :=
  match s with
  | String c s' =>
      if cls c then
        match star cls s' k with
        | Some r => Some r
        | None => k s
        end
      else k s
  | EmptyString => k s
  end.

Fixpoint exec (p : pattern) (s : string) (g : match_object)
    (k : string -> match_object -> option A) : option A :=
  match p with
  | Eps => k s g
  | Lit c =>
      match s with
      | String c' s' => if Ascii.eqb c c' then k s' g else None
      | EmptyString => None
      end
  | Seq p q => exec p s g (fun s' g' => exec q s' g' k)
  | Opt p =>
      match exec p s g k with
      | Some r => Some r
      | None => k s g
      end
  | Star cls => star cls s (fun s' => k s' g)
  | Plus cls =>
      match s with
      | String c s' =>
          if cls c then star cls s' (fun s'' => k s'' g) else None
      | EmptyString => None
      end
  | Group n p =>
      exec p s g (fun s' g' => k s' (<[n := consumed s s']> g'))
  end.
End Matcher.

(** [pattern.match(s)]: anchored at the start of [s], free at its end. *)
Definition match_ (p : pattern) (s : string) : option match_object :=
  exec p s ∅ (fun _ g => Some g).

(** [m.group(n)]: [None] for a group that did not take part. *)
Definition group (m : match_object) (n : nat) : option string := m !! n.

End re.

(** ** The world the client runs in *)

Module World.
Import Py.

(** A value stored under a header name: [Content-Length] is stored as the
    integer [len(data_str)], everything else as a string. *)
Inductive value : Type :=
  | VStr (s : string)
  | VInt (n : Z).

(** The identity of a dict object. *)
Abbreviation loc := nat (only parsing).

(** A request as the module composes it: the class it picks, the host
    and port it passes to the constructor, the method and selector it
    passes to [putrequest], and the lines it puts with [putheader], in
    order. What [httplib] makes of them on its own account is not in the
    record: the [Host] and [Accept-Encoding] lines that [putrequest]
    adds, the slash it sends for an empty selector, and its refusal of a
    request it cannot put (no host to name, a selector or a header value
    it does not accept), which ends the call before [endheaders]. *)
Record connection : Type := {
  conn_ssl : bool;                       (* HTTPSConnection or HTTPConnection *)
  conn_host : option string;             (* as passed to the constructor *)
  conn_port : Z;
  conn_method : string;                  (* as passed to [putrequest] *)
  conn_selector : string;
  conn_headers : list (string * value)   (* the module's [putheader] calls *)
}.

Record HTTPResponse : Type := {
  status : Z;
  reason : string;
  body : string
}.

(** What the client asked of the network, in order: the header block of
    a composed request to go out, a body to be sent after it, a response
    to be read. *)
Inductive event : Type :=
  | EndHeaders (c : connection)
  | Send (c : connection) (data : string)
  | GetResponse (c : connection).

(** The mutable objects and the network traffic so far. *)
Record world : Type := {
  heap : gmap loc (gmap string value);
  wire : list event
}.

(** Computations that read and write the world and may raise; what was
    written before an exception stays written. *)
Definition M (A : Type) : Type := world -> result A * world.

Definition ret {A} (a : A) : M A := fun w => (Ok a, w).

Definition raise {A} (e : exn) : M A := fun w => (Raise e, w).

Definition bind {A B} (m : M A) (k : A -> M B) : M B :=
  fun w =>
    match m w with
    | (Ok a, w') => k a w'
    | (Raise e, w') => (Raise e, w')
    end.

Definition lift {A} (r : result A) : M A := fun w => (r, w).

(** [{}]: a new, empty dict object. *)
Definition dict_new : M loc :=
  fun w =>
    let l := fresh (dom (heap w)) in
    (Ok l, {| heap := <[l := ∅]> (heap w); wire := wire w |}).

(** The contents of the dict object [l]. *)
Definition dict_read (l : loc) : M (gmap string value) :=
  fun w =>
    match heap w !! l with
    | Some d => (Ok d, w)
    | None => (Raise ReferenceError, w)
    end.

(** [d[k] = v] on the dict object [l]. *)
Definition dict_setitem (l : loc) (k : string) (v : value) : M unit :=
  fun w =>
    match heap w !! l with
    | Some d => (Ok tt, {| heap := <[l := <[k := v]> d]> (heap w);
                           wire := wire w |})
    | None => (Raise ReferenceError, w)
    end.

(** [x[k] = v] where [x] is [None] or a dict: item assignment on [None]
    is a [TypeError]. *)
Definition setitem (x : option loc) (k : string) (v : value) : M unit :=
  match x with
  | None => raise TypeError
  | Some l => dict_setitem l k v
  end.

(** [xml.etree.ElementTree]: the element type and its serializer, which
    the module only calls. *)
Class ElementTree : Type := {
  Element : Type;
  tostring : Element -> string
}.

(** The network as [httplib] shows it to the client: whether the header
    block and the body go out, and what comes back, given the traffic so
    far. Failures are [socket_error]s. *)
Class httplib : Type := {
  net_endheaders : list event -> connection -> result unit;
  net_send : list event -> connection -> string -> result unit;
  net_getresponse : list event -> connection -> result HTTPResponse
}.

(** [connection.putheader(header, value)] *)
Definition putheader (c : connection) (header : string) (v : value)
    : connection :=
  {| conn_ssl := conn_ssl c; conn_host := conn_host c;
     conn_port := conn_port c; conn_method := conn_method c;
     conn_selector := conn_selector c;
     conn_headers := conn_headers c ++ [(header, v)] |}.

Section Network.
Context {net : httplib}.

(** [connection.endheaders()], [connection.send(data)] and
    [connection.getresponse()]: the request is recorded, then the network
    answers. *)
Definition endheaders (c : connection) : M unit :=
  fun w =>
    (net_endheaders (wire w) c,
     {| heap := heap w; wire := wire w ++ [EndHeaders c] |}).

Definition send (c : connection) (data : string) : M unit :=
  fun w =>
    (net_send (wire w) c data,
     {| heap := heap w; wire := wire w ++ [Send c data] |}).

Definition getresponse (c : connection) : M HTTPResponse :=
  fun w =>
    (net_getresponse (wire w) c,
     {| heap := heap w; wire := wire w ++ [GetResponse c] |}).
End Network.

End World.

Declare Scope py_scope.
Delimit Scope py_scope with py.
Notation "'let*' x := m 'in' k" := (World.bind m (fun x => k))
  (at level 10, x name, m at level 100, k at level 200) : py_scope.
Notation "'let*' ' p := m 'in' k" :=
  (World.bind m (fun x => match x with p => k end))
  (at level 10, p pattern, m at level 100, k at level 200) : py_scope.
Notation "'do' m 'in' k" := (World.bind m (fun _ => k))
  (at level 10, m at level 100, k at level 200) : py_scope.

(** ** atom.service *)

Module service.
Import Py World.
Local Open Scope py_scope.

(** [[\w\.-]]: the characters of the host group. *)
Definition host_class (c : ascii) : bool :=
  re.is_word c || Ascii.eqb c "." || Ascii.eqb c "-".

(** The compiled pattern of the module, piece by piece as the source
    spells it: the text http; group 1, an optional s; the text ://;
    group 2, the class [\w\.-] starred; optional group 3, a colon and
    group 4, one or more [\d]; optional group 5, a slash and a starred
    dot. *)
Definition URL_REGEX : re.pattern :=
  re.Seq (re.text "http")
   (re.Seq (re.Opt (re.Group 1 (re.Lit "s")))
     (re.Seq (re.text "://")
       (re.Seq (re.Group 2 (re.Star host_class))
         (re.Seq
            (re.Opt
               (re.Group 3
                  (re.Seq (re.Lit ":") (re.Group 4 (re.Plus re.is_digit)))))
            (re.Opt
               (re.Group 5 (re.Seq (re.Lit "/") (re.Star re.is_dot)))))))).

(** An [AtomService] instance. [port] and [ssl] are class attributes
    (80 and [False]) that an instance may shadow; [additional_headers]
    refers to a dict object. *)
Record AtomService : Type := {
  server : option string;
  port : Z;
  ssl : bool;
  additional_headers : loc
}.

(** [AtomService.__init__]: [additional_headers or {}] keeps the caller's
    dict when it is truthy, that is non-empty, and makes a new one
    otherwise. *)
Definition __init__ (server : option string)
    (additional_headers : option loc) : M AtomService :=
  let* headers :=
    match additional_headers with
    | Some l =>
        let* d := dict_read l in
        if bool_decide (d = ∅) then dict_new else ret l
    | None => dict_new
    end in
  do dict_setitem headers "User-Agent" (VStr "Python Google Data Client Lib") in
  ret {| server := server; port := 80; ssl := false;
         additional_headers := headers |}.

(** [AtomService._ProcessUrl] *)
Definition _ProcessUrl (self : AtomService) (url : string)
    : result (option string * Z * bool * string) :=
  let server := self.(server) in
  let port := self.(port) in
  let ssl := self.(ssl) in
  let uri := url in
  match re.match_ URL_REGEX url with
  | None => Ok (server, port, ssl, uri)
  | Some m =>
      let '(port, ssl) :=
        match re.group m 1 with
        | Some _ => (443%Z, true)
        | None => (port, ssl)
        end in
      let server_port :=
        match re.group m 3 with
        | None => Ok (re.group m 2, port)
        | Some _ =>
            match int (re.group m 4) with
            | Ok n => Ok (re.group m 2, n)
            | Raise e => Raise e
            end
        end in
      let uri :=
        match re.group m 5 with
        | Some u => u
        | None => "/"
        end in
      match server_port with
      | Ok (server, port) => Ok (server, port, ssl, uri)
      | Raise e => Raise e
      end
  end.

(** [AtomService.UseBasicAuth] *)
Definition UseBasicAuth (self : AtomService) (username password : string)
    : M unit :=
  let base_64_string := base64.encodestring (username +:+ ":" +:+ password) in
  let base_64_string := strip base_64_string in
  dict_setitem self.(additional_headers) "Authorization"
    (VStr ("Basic " +:+ base_64_string)).

(** [DictionaryToParamList]: [transform_op] is [str] or
    [urllib.quote_plus]; the pairs come in the order [items()] gives. *)
Definition DictionaryToParamList (url_parameters : option (gmap string string))
    (escape_params : bool) : list string :=
  let transform_op : string -> string :=
    if escape_params then (fun s => urllib.quote_plus s "") else (fun s => s) in
  let parameter_tuples :=
    (fun kv : string * string => (transform_op kv.1, transform_op kv.2))
      <$> map_to_list (default ∅ url_parameters) in
  (fun x : string * string => join "=" [x.1; x.2]) <$> parameter_tuples.

(** [BuildUri] *)
Definition BuildUri (uri : string) (url_params : option (gmap string string))
    (escape_params : bool) : string :=
  let parameter_list := DictionaryToParamList url_params escape_params in
  match parameter_list with
  | _ :: _ =>
      if negb (find uri "?" =? -1)%Z
      then join "&" ([uri] ++ parameter_list)
      else uri +:+ ("?" +:+ join "&" ([] ++ parameter_list))
  | [] => uri
  end.

(** What a caller may hand to [Post] and [Put] as [data]: an element
    tree, a string, or any object, of which only the outcome of its
    [__str__] matters. *)
Inductive data `{ElementTree} : Type :=
  | DElement (e : Element)
  | DStr (s : string)
  | DObject (str_ : result string).

Section Requests.
Context {ET : ElementTree} {net : httplib}.

(** The first lines of [Post] and [Put]:
    [ElementTree.tostring(data)] for an element, [str(data)] otherwise. *)
Definition serialize (d : data) : result string :=
  match d with
  | DElement e => Ok (tostring e)
  | DStr s => Ok s
  | DObject str_ => str_
  end.

(** The loop [for header in d: connection.putheader(header, d[header])]. *)
Definition putheaders (c : connection) (d : gmap string value)
    : connection :=
  foldl (fun c kv => putheader c kv.1 kv.2) c (map_to_list d).

(** [AtomService._CreateConnection]. [self.additional_headers] is always
    a dict here, so the first [isinstance] test holds; the second one
    tells a dict from [None]. The constructor, [putrequest] and
    [putheader] are taken as they are called, as updates of the composed
    request: every request the module composes gets to [endheaders] here,
    also one that [httplib] would refuse to put. What is proved of a
    composed request is proved of the calls the module makes for it, not
    of [httplib]'s answer to them; the properties of the traffic as a
    whole leave room for a call that ends before the network. *)
Definition _CreateConnection (self : AtomService) (uri : string)
    (http_operation : string) (extra_headers : option loc)
    (url_params : option (gmap string string)) (escape_params : bool)
    : M connection :=
  let full_uri := BuildUri uri url_params escape_params in
  let* '(server, port, ssl, full_uri) := lift (_ProcessUrl self full_uri) in
  let connection :=
    {| conn_ssl := ssl; conn_host := server; conn_port := port;
       conn_method := http_operation; conn_selector := full_uri;
       conn_headers := [] |} in
  let* d := dict_read self.(additional_headers) in
  let connection := putheaders connection d in
  let* connection :=
    match extra_headers with
    | Some l => let* d := dict_read l in ret (putheaders connection d)
    | None => ret connection
    end in
  do endheaders connection in
  ret connection.

(** [AtomService.Get] *)
Definition Get (self : AtomService) (uri : string)
    (extra_headers : option loc) (url_params : option (gmap string string))
    (escape_params : bool) : M HTTPResponse :=
  let* query_connection :=
    _CreateConnection self uri "GET" extra_headers url_params
      escape_params in
  getresponse query_connection.

(** [AtomService.Post] *)
Definition Post (self : AtomService) (data : data) (uri : string)
    (extra_headers : option loc) (url_params : option (gmap string string))
    (escape_params : bool) (content_type : string) : M HTTPResponse :=
  let* data_str := lift (serialize data) in
  do setitem extra_headers "Content-Length"
       (VInt (Z.of_nat (String.length data_str))) in
  do setitem extra_headers "Content-Type" (VStr content_type) in
  let* insert_connection :=
    _CreateConnection self uri "POST" extra_headers url_params
      escape_params in
  do send insert_connection data_str in
  getresponse insert_connection.

(** [AtomService.Put] *)
Definition Put (self : AtomService) (data : data) (uri : string)
    (extra_headers : option loc) (url_params : option (gmap string string))
    (escape_params : bool) (content_type : string) : M HTTPResponse :=
  let* data_str := lift (serialize data) in
  do setitem extra_headers "Content-Length"
       (VInt (Z.of_nat (String.length data_str))) in
  do setitem extra_headers "Content-Type" (VStr content_type) in
  let* update_connection :=
    _CreateConnection self uri "PUT" extra_headers url_params
      escape_params in
  do send update_connection data_str in
  getresponse update_connection.

(** [AtomService.Delete] *)
Definition Delete (self : AtomService) (uri : string)
    (extra_headers : option loc) (url_params : option (gmap string string))
    (escape_params : bool) : M HTTPResponse :=
  let* delete_connection :=
    _CreateConnection self uri "DELETE" extra_headers url_params
      escape_params in
  getresponse delete_connection.
End Requests.

(** The default value of [content_type] in [Post] and [Put]. *)
Definition default_content_type : string := "application/atom+xml".

End service.

(** ** The form encoding, as the specification words it *)

Module Spec.

(** Letters, digits, underscore, dot and hyphen stand for themselves. *)
Definition unreserved (c : ascii) : bool :=
  let n := N_of_ascii c in
  ((65 <=? n) && (n <=? 90) || (97 <=? n) && (n <=? 122)
   || (48 <=? n) && (n <=? 57) || (n =? 95) || (n =? 46) || (n =? 45))%N.

(** The digit of a value below sixteen, in upper case: 0 to 9, then A
    to F. *)
Definition hexadecimal (n : N) : ascii :=
  if (n <? 10)%N then ascii_of_N (N_of_ascii "0" + n)
  else ascii_of_N (N_of_ascii "A" + (n - 10)).

(** The percent escape of a byte: a percent sign and the two hexadecimal
    digits of its value, the high one first. *)
Definition percent_escape (c : ascii) : string :=
  let n := N_of_ascii c in
  String "%"
    (String (hexadecimal (n / 16)) (String (hexadecimal (n mod 16)) "")).

(** A space becomes a plus sign, every other character its percent
    escape. *)
Definition form_urlencode_char (c : ascii) : string :=
  if unreserved c then String c EmptyString
  else if Ascii.eqb c " " then "+"
  else percent_escape c.

Definition form_urlencode (s : string) : string :=
  Py.join_map form_urlencode_char s.

(** The parts of an absolute URL [scheme://host[:port][/path]]: a host
    name is made of letters, digits, underscores, dots and hyphens; a port
    is a non-empty run of decimal digits; what follows the slash of the
    path holds no line feed. *)
Definition is_host (host : string) : bool :=
  Py.all_chars
    (fun c => re.is_word c || Ascii.eqb c "." || Ascii.eqb c "-") host.

Definition is_port (digits : string) : bool :=
  match digits with
  | EmptyString => false
  | _ => Py.all_chars Py.isdigit digits
  end.

Definition is_path_tail (rest : string) : bool :=
  Py.all_chars (fun c => negb (Ascii.eqb c Py.newline)) rest.

(** The number a run of decimal digits writes. *)
Definition decimal (digits : string) : Z := Py.int_from 0%Z digits.

(** The absolute URL [scheme://host[:port][/path]] with these parts;
    [path] is what follows the slash. *)
Definition absolute_url (https : bool) (host : string)
    (port path : option string) : string :=
  "http" +:+ (if https then "s" else "") +:+ "://" +:+ host
    +:+ match port with Some d => ":" +:+ d | None => "" end
    +:+ match path with Some r => "/" +:+ r | None => "" end.

Definition well_formed (host : string) (port path : option string) : bool :=
  is_host host
  && match port with Some d => is_port d | None => true end
  && match path with Some r => is_path_tail r | None => true end.

(** A header mapping once [Content-Length], the byte length of the body,
    and [Content-Type] have been written into it. *)
Definition with_content_headers (data_str content_type : string)
    (d : gmap string World.value) : gmap string World.value :=
  <["Content-Type" := World.VStr content_type]>
    (<["Content-Length" :=
         World.VInt (Z.of_nat (String.length data_str))]> d).

(** The serialized body of a request: the text of an element, the string
    itself, or what the object's [__str__] returns. *)
Definition body_text `{World.ElementTree} (d : service.data)
    (data_str : string) : Prop :=
  match d with
  | service.DElement e => data_str = World.tostring e
  | service.DStr s => data_str = s
  | service.DObject str_ => str_ = Py.Ok data_str
  end.

(** Base64 (RFC 4648, table 1): the character of a 6-bit value. *)
Definition base64_digit (n : N) : ascii :=
  if (n <? 26)%N then ascii_of_N (N_of_ascii "A" + n)
  else if (n <? 52)%N then ascii_of_N (N_of_ascii "a" + (n - 26))
  else if (n <? 62)%N then ascii_of_N (N_of_ascii "0" + (n - 52))
  else if (n =? 62)%N then "+"%char
  else "/"%char.

(** Base64 (RFC 4648, section 4): every three bytes are read as one 24-bit
    number and written as four 6-bit digits; a last group of one or two
    bytes is filled up with zero bits and written as two or three digits
    and padding. No line feeds. *)
Fixpoint base64_text (s : string) : string :=
  match s with
  | EmptyString => EmptyString
  | String a EmptyString =>
      let n := (65536 * N_of_ascii a)%N in
      String (base64_digit (n / 262144))
        (String (base64_digit ((n / 4096) mod 64)) "==")
  | String a (String b EmptyString) =>
      let n := (65536 * N_of_ascii a + 256 * N_of_ascii b)%N in
      String (base64_digit (n / 262144))
        (String (base64_digit ((n / 4096) mod 64))
           (String (base64_digit ((n / 64) mod 64)) "="))
  | String a (String b (String c rest)) =>
      let n := (65536 * N_of_ascii a + 256 * N_of_ascii b + N_of_ascii c)%N in
      String (base64_digit (n / 262144))
        (String (base64_digit ((n / 4096) mod 64))
           (String (base64_digit ((n / 64) mod 64))
              (String (base64_digit (n mod 64)) (base64_text rest))))
  end.

(** [s] with a line feed put before every character that would be the
    [width + 1]st of its line; [room] is what is left of the current
    line. The text does not end in a line feed. *)
Fixpoint wrap_from (width room : nat) (s : string) : string :=
  match s with
  | EmptyString => EmptyString
  | String c s' =>
      match room with
      | O => String Py.newline (String c (wrap_from width (width - 1) s'))
      | S room' => String c (wrap_from width room' s')
      end
  end.

Definition wrap (width : nat) (s : string) : string := wrap_from width width s.

(** A string with no whitespace left to strip at either end. *)
Definition trimmed (s : string) : Prop :=
  s <> "" /\ Py.lstrip s = s /\ Py.rstrip s = s.

(** What may follow the recognised part of a URL without being looked at:
    after a path, nothing or a line feed; after a port, no further digit
    and no slash; after a bare host, no host character, colon or slash. *)
Definition dropped_tail (port path : option string) (junk : string) : bool :=
  match path, port with
  | Some _, _ => re.stops re.is_dot junk
  | None, Some _ => re.stops re.is_digit junk && re.stops (Ascii.eqb "/") junk
  | None, None =>
      re.stops service.host_class junk && re.stops (Ascii.eqb ":") junk
      && re.stops (Ascii.eqb "/") junk
  end.

(** A colon and a digit: the start of a port. *)
Definition starts_port (junk : string) : bool :=
  match junk with
  | String c (String c' _) => Ascii.eqb c ":" && re.is_digit c'
  | _ => false
  end.

(** Exactly the text that the pattern leaves unread after a URL with these
    parts: after a path, nothing or a line feed and what follows it; after
    a port without path, text that starts with no digit and no slash;
    after a bare host, text that starts with no host character, no slash
    and no port. Any other text would have been read into the last part or
    as the next one. *)
Definition unread_tail (port path : option string) (junk : string) : bool :=
  match path, port with
  | Some _, _ => re.stops re.is_dot junk
  | None, Some _ => re.stops re.is_digit junk && re.stops (Ascii.eqb "/") junk
  | None, None =>
      re.stops service.host_class junk && re.stops (Ascii.eqb "/") junk
      && negb (starts_port junk)
  end.

(** The characters of an escaped [key=value] string. *)
Definition query_safe (c : ascii) : bool :=
  unreserved c || Ascii.eqb c "+" || Ascii.eqb c "%" || Ascii.eqb c "=".

(** The header lines of a request: the client's, then the caller's. *)
Definition request_headers (da : gmap string World.value)
    (extra : option (gmap string World.value))
    : list (string * World.value) :=
  (map_to_list da
   ++ match extra with Some d => map_to_list d | None => [] end)%list.

(** The header block [c] is made out for [method] and for the host, port
    and encryption setting that [_ProcessUrl] resolves the uri with its
    parameters to. *)
Definition addressed (self : service.AtomService) (uri : string)
    (url_params : option (gmap string string)) (escape_params : bool)
    (method : string) (c : World.connection) : Prop :=
  World.conn_method c = method
  /\ exists selector,
       service._ProcessUrl self
         (service.BuildUri uri url_params escape_params)
       = Py.Ok (World.conn_host c, World.conn_port c, World.conn_ssl c,
                selector).

(** The module has put on [c] every line of the dict [d], if there is
    one. *)
Definition carries_dict (d : option (gmap string World.value))
    (c : World.connection) : Prop :=
  forall k v, d ≫= (.!! k) = Some v -> (k, v) ∈ World.conn_headers c.

(** What a call that returned [r] left on the network: nothing, and then it
    raised; or, first of all, a header block of which [P] holds. *)
Definition first_block (P : World.connection -> Prop)
    (r : Py.result World.HTTPResponse) (evs : list World.event) : Prop :=
  match evs with
  | [] => exists e, r = Py.Raise e
  | World.EndHeaders c :: _ => P c
  | _ => False
  end.

(** How a request without body goes on the network, given the traffic so
    far: the outcome and the events it leaves. The response is read only
    when the header block went out. *)
Definition bodiless_outcome `{World.httplib} (log : list World.event)
    (c : World.connection)
    : Py.result World.HTTPResponse * list World.event :=
  match World.net_endheaders log c with
  | Py.Raise e => (Py.Raise e, [World.EndHeaders c])
  | Py.Ok _ =>
      (World.net_getresponse (log ++ [World.EndHeaders c]) c,
       [World.EndHeaders c; World.GetResponse c])
  end.

(** The same with a body: the body is sent only when the header block
    went out, the response read only when the body went out. *)
Definition bodied_outcome `{World.httplib} (log : list World.event)
    (c : World.connection) (data_str : string)
    : Py.result World.HTTPResponse * list World.event :=
  match World.net_endheaders log c with
  | Py.Raise e => (Py.Raise e, [World.EndHeaders c])
  | Py.Ok _ =>
      match World.net_send (log ++ [World.EndHeaders c]) c data_str with
      | Py.Raise e =>
          (Py.Raise e, [World.EndHeaders c; World.Send c data_str])
      | Py.Ok _ =>
          (World.net_getresponse
             (log ++ [World.EndHeaders c; World.Send c data_str]) c,
           [World.EndHeaders c; World.Send c data_str;
            World.GetResponse c])
      end
  end.

End Spec.

(** ** Instances to run the client on *)

Module Fixture.
Import Py World service.

(** Elements that are their own serialization. *)
Definition text_elements : ElementTree :=
  {| Element := string; tostring := fun s => s |}.

(** Elements with a tag and a text, serialized as markup. *)
Definition tagged_elements : ElementTree :=
  {| Element := string * string;
     tostring := fun e =>
       "<" +:+ e.1 +:+ ">" +:+ e.2 +:+ "</" +:+ e.1 +:+ ">" |}.

(** A network on which every operation fails. *)
Definition offline : httplib :=
  {| net_endheaders := fun _ _ => Raise socket_error;
     net_send := fun _ _ _ => Raise socket_error;
     net_getresponse := fun _ _ => Raise socket_error |}.

(** A server that answers every request with 201 and an empty body. *)
Definition created : httplib :=
  {| net_endheaders := fun _ _ => Ok tt;
     net_send := fun _ _ _ => Ok tt;
     net_getresponse := fun _ _ =>
       Ok {| status := 201; reason := "Created"; body := "" |} |}.

(** A client of [example.com] whose headers live at [0], and a world
    holding them and a caller's dict at [1]. *)
Definition client : AtomService :=
  {| server := Some "example.com"; port := 80; ssl := false;
     additional_headers := 0%nat |}.

Definition secure_client : AtomService :=
  {| server := Some "example.com"; port := 443; ssl := true;
     additional_headers := 0%nat |}.

Definition world0 : world :=
  {| heap :=
       {[ 0%nat := {[ "User-Agent" := VStr "Python Google Data Client Lib" ]};
          1%nat := {[ "Content-Type" := VStr "text/plain" ]} ]};
     wire := [] |}.

(** An account name of 50 bytes and a password of 7: with the colon, 58
    bytes of credentials. *)
Definition long_username : string :=
  "firstname.lastname@department.organisation.example".

Definition short_password : string := "s3cret!".

(** A world where the caller holds an empty dict at [0]. *)
Definition world_empty_dict : world :=
  {| heap := {[ 0%nat := ∅ ]}; wire := [] |}.

(** A client whose [port] attribute was set to 8080. *)
Definition local_client : AtomService :=
  {| server := Some "localhost"; port := 8080; ssl := false;
     additional_headers := 0%nat |}.

(** A world where the client's dict at [0] and a caller's dict at [1]
    both name a [User-Agent]. *)
Definition world_two_agents : world :=
  {| heap :=
       {[ 0%nat := {[ "User-Agent" := VStr "Python Google Data Client Lib" ]};
          1%nat := {[ "User-Agent" := VStr "my-script/1.0" ]} ]};
     wire := [] |}.

End Fixture.

(** * Properties *)

(** ** Strings *)

Local Arguments String.append : simpl nomatch.

Section StringFacts.

Lemma str_app_nil_r (s : string) : s +:+ "" = s.
Proof. induction s as [|c s IH]; simpl; congruence. Qed.

Lemma str_app_assoc (a b c : string) : (a +:+ b) +:+ c = a +:+ (b +:+ c).
Proof. induction a as [|x a IH]; simpl; congruence. Qed.

Lemma str_length_app (a b : string) :
  String.length (a +:+ b) = String.length a + String.length b.
Proof. induction a as [|x a IH]; simpl; congruence. Qed.

Lemma take_app (a b : string) : Py.take (String.length a) (a +:+ b) = a.
Proof.
  induction a as [|x a IH]; simpl; [by destruct b|].
  by rewrite IH.
Qed.

Lemma take_all (a : string) : Py.take (String.length a) a = a.
Proof. rewrite <- (str_app_nil_r a) at 2. apply take_app. Qed.

Lemma consumed_app (a b : string) : re.consumed (a +:+ b) b = a.
Proof.
  unfold re.consumed. rewrite str_length_app.
  replace (String.length a + String.length b - String.length b)
    with (String.length a) by lia.
  apply take_app.
Qed.

Lemma contains_app (c : ascii) (a b : string) :
  Py.contains c (a +:+ b) = Py.contains c a || Py.contains c b.
Proof.
  induction a as [|x a IH]; simpl; [done|].
  destruct (Ascii.eqb c x); [done | exact IH].
Qed.

(** [contains] decides the occurrence of a character. *)
Lemma contains_spec (c : ascii) (s : string) :
  Py.contains c s = true <-> exists a b, s = a +:+ String c b.
Proof.
  split.
  - induction s as [|x s IH]; simpl; [done|].
    destruct (Ascii.eqb_spec c x) as [->|Hne].
    + intros _. by exists "", s.
    + intros H. destruct (IH H) as (a & b & ->). by exists (String x a), b.
  - intros (a & b & ->). rewrite contains_app. simpl.
    rewrite Ascii.eqb_refl. apply orb_true_r.
Qed.

Lemma find_from_contains (i : Z) (c : ascii) (s : string) :
  (0 <= i)%Z ->
  if Py.contains c s then (i <= Py.find_from i c s)%Z
  else Py.find_from i c s = (-1)%Z.
Proof.
  revert i. induction s as [|x s IH]; intros i Hi; simpl; [done|].
  rewrite (Ascii.eqb_sym c x).
  destruct (Ascii.eqb x c); [lia|].
  specialize (IH (i + 1)%Z ltac:(lia)).
  destruct (Py.contains c s); [lia | done].
Qed.

(** [s.find(c) != -1] says that [c] occurs in [s]. *)
Lemma find_contains (c : ascii) (s : string) :
  negb (Py.find s c =? -1)%Z = Py.contains c s.
Proof.
  unfold Py.find. pose proof (find_from_contains 0 c s ltac:(lia)) as H.
  destruct (Py.contains c s).
  - apply negb_true_iff, Z.eqb_neq. lia.
  - rewrite H. done.
Qed.

Lemma join_cons (sep x : string) (l : list string) :
  l <> [] -> Py.join sep (x :: l) = x +:+ sep +:+ Py.join sep l.
Proof. destruct l; [done | reflexivity]. Qed.

Lemma replace_app (a b : ascii) (x y : string) :
  Py.replace a b (x +:+ y) = Py.replace a b x +:+ Py.replace a b y.
Proof. induction x as [|c x IH]; simpl; congruence. Qed.

End StringFacts.

(** ** urllib.quote_plus is the form encoding *)

Lemma replace_quote_char (c : ascii) :
  Py.replace " " "+"
    (if Py.contains c (("" +:+ " ") +:+ urllib.always_safe)
     then String c EmptyString else urllib.percent c)
  = Spec.form_urlencode_char c.
Proof. destruct c as [[] [] [] [] [] [] [] []]; reflexivity. Qed.

Lemma quote_char_no_space (c : ascii) :
  Ascii.eqb " " c = false ->
  (if Py.contains c ("" +:+ urllib.always_safe)
   then String c EmptyString else urllib.percent c)
  = Spec.form_urlencode_char c.
Proof.
  destruct c as [[] [] [] [] [] [] [] []]; intros H;
    first [reflexivity | discriminate H].
Qed.

Lemma quote_plus_form_urlencode (s : string) :
  urllib.quote_plus s "" = Spec.form_urlencode s.
Proof.
  unfold urllib.quote_plus, urllib.quote, Spec.form_urlencode.
  destruct (Py.contains " " s) eqn:Hsp.
  - clear Hsp. induction s as [|c s IH]; [reflexivity|].
    cbn [Py.join_map]. rewrite replace_app, IH.
    f_equal. apply replace_quote_char.
  - induction s as [|c s IH]; [reflexivity|].
    cbn [Py.join_map Py.contains] in *.
    destruct (Ascii.eqb " " c) eqn:Hc; [discriminate|].
    rewrite (IH Hsp). f_equal. by apply quote_char_no_space.
Qed.

(** ** DictionaryToParamList and BuildUri *)

Section BuildUri.
Import service.

Lemma DictionaryToParamList_None (escape_params : bool) :
  DictionaryToParamList None escape_params = [].
Proof. unfold DictionaryToParamList. simpl. by rewrite map_to_list_empty. Qed.

Lemma DictionaryToParamList_empty (escape_params : bool) :
  DictionaryToParamList (Some ∅) escape_params = [].
Proof. unfold DictionaryToParamList. simpl. by rewrite map_to_list_empty. Qed.

Lemma DictionaryToParamList_nonempty (params : gmap string string)
    (escape_params : bool) :
  params <> ∅ -> DictionaryToParamList (Some params) escape_params <> [].
Proof.
  intros Hne Hnil. unfold DictionaryToParamList in Hnil. simpl in Hnil.
  apply fmap_nil_inv, fmap_nil_inv in Hnil.
  by apply map_to_list_empty_iff in Hnil.
Qed.

(** The strings of the list are exactly the transformed pairs of the
    dict. *)
Lemma elem_of_DictionaryToParamList (params : gmap string string)
    (escape_params : bool) (x : string) :
  x ∈ DictionaryToParamList (Some params) escape_params <->
  exists k v, params !! k = Some v /\
    x = (if escape_params then urllib.quote_plus k "" else k) +:+ "=" +:+
        (if escape_params then urllib.quote_plus v "" else v).
Proof.
  unfold DictionaryToParamList. simpl. rewrite <- list_fmap_compose.
  rewrite list_elem_of_fmap. split.
  - intros ([k v] & -> & Hkv). apply elem_of_map_to_list in Hkv.
    exists k, v. split; [done|]. by destruct escape_params.
  - intros (k & v & Hkv & ->). exists (k, v). split.
    + by destruct escape_params.
    + by apply elem_of_map_to_list.
Qed.

(** C5: for every uri and every escape flag, BuildUri with no parameter
    mapping, or with an empty one, returns the uri unchanged. *)
Theorem BuildUri_no_params (uri : string) (escape_params : bool) :
  BuildUri uri None escape_params = uri /\
  BuildUri uri (Some ∅) escape_params = uri.
Proof.
  unfold BuildUri.
  by rewrite DictionaryToParamList_None, DictionaryToParamList_empty.
Qed.

(** C6: for a non-empty parameter mapping, BuildUri appends the encoded
    key=value strings, joined by ampersands, after an ampersand when the
    uri already holds a question mark and after one question mark
    otherwise; the two examples of the specification evaluate as stated. *)
Theorem BuildUri_separator (uri : string) (params : gmap string string)
    (escape_params : bool) (Hparams : params <> ∅) :
  BuildUri uri (Some params) escape_params
    = uri +:+ (if Py.contains "?" uri then "&" else "?")
          +:+ Py.join "&" (DictionaryToParamList (Some params) escape_params)
  /\ BuildUri "/feeds/items" (Some {[ "max-results" := "250" ]}) true
     = "/feeds/items?max-results=250"
  /\ BuildUri "/feeds/items?x=1" (Some {[ "y" := "2" ]}) true
     = "/feeds/items?x=1&y=2".
Proof.
  split; [|split; reflexivity].
  unfold BuildUri.
  pose proof (DictionaryToParamList_nonempty params escape_params Hparams)
    as Hne.
  destruct (DictionaryToParamList (Some params) escape_params)
    as [|p ps] eqn:Hlist; [done|].
  rewrite find_contains. destruct (Py.contains "?" uri).
  - simpl app. by rewrite join_cons.
  - reflexivity.
Qed.

(** C7: with escaping on, DictionaryToParamList form-encodes key and value
    of every pair: letters, digits, underscore, dot and hyphen stand for
    themselves, a space becomes a plus sign and every other byte a percent
    sign and its two upper-case hexadecimal digits; with escaping off,
    both pass through unchanged. The list holds nothing but the encoded
    pairs of the dict. *)
Theorem DictionaryToParamList_escape (params : gmap string string)
    (k v : string) (Hkv : params !! k = Some v) :
  (Spec.form_urlencode k +:+ "=" +:+ Spec.form_urlencode v)
    ∈ DictionaryToParamList (Some params) true
  /\ (k +:+ "=" +:+ v) ∈ DictionaryToParamList (Some params) false
  /\ (forall x, x ∈ DictionaryToParamList (Some params) true ->
        exists k' v', params !! k' = Some v'
          /\ x = Spec.form_urlencode k' +:+ "=" +:+ Spec.form_urlencode v')
  /\ (forall x, x ∈ DictionaryToParamList (Some params) false ->
        exists k' v', params !! k' = Some v' /\ x = k' +:+ "=" +:+ v')
  /\ DictionaryToParamList (Some {[ "q" := "a b" ]}) true = ["q=a+b"]
  /\ DictionaryToParamList (Some {[ "q" := "a b" ]}) false = ["q=a b"]
  /\ DictionaryToParamList (Some {[ "a&b" := "c/d e=f?~" ]}) true
     = ["a%26b=c%2Fd+e%3Df%3F%7E"]
  /\ Spec.form_urlencode "A-z_0.9 &/=?%+~" = "A-z_0.9+%26%2F%3D%3F%25%2B%7E".
Proof.
  split; [|split; [|split; [|split; [|repeat split; reflexivity]]]].
  - apply elem_of_DictionaryToParamList. exists k, v.
    by rewrite !quote_plus_form_urlencode.
  - apply elem_of_DictionaryToParamList. by exists k, v.
  - intros x (k' & v' & Hkv' & ->)%elem_of_DictionaryToParamList.
    exists k', v'. by rewrite !quote_plus_form_urlencode.
  - intros x (k' & v' & Hkv' & ->)%elem_of_DictionaryToParamList.
    by exists k', v'.
Qed.

End BuildUri.

(** ** The matcher *)

Lemma consumed_nil (s : string) : re.consumed s "" = s.
Proof. unfold re.consumed. simpl. rewrite Nat.sub_0_r. apply take_all. Qed.

Lemma consumed_cons (c : ascii) (a b : string) :
  re.consumed (String c (a +:+ b)) b = String c a.
Proof. apply (consumed_app (String c a) b). Qed.

Lemma consumed_one (c : ascii) (b : string) :
  re.consumed (String c b) b = String c "".
Proof. apply (consumed_app (String c "") b). Qed.

Section MatcherFacts.
Context {A : Type}.
Implicit Types (k : string -> gmap nat string -> option A).
Implicit Types (g : gmap nat string).

(** *** What a pattern does on a string of a known shape *)

Lemma star_greedy cls pre s' (k : string -> option A) r :
  Py.all_chars cls pre = true -> re.stops cls s' = true -> k s' = Some r ->
  re.star cls (pre +:+ s') k = Some r.
Proof.
  intros Hpre Hstop Hk. induction pre as [|c pre IH]; simpl in *.
  - destruct s' as [|c s']; simpl in *; [done|].
    by apply negb_true_iff in Hstop as ->.
  - apply andb_true_iff in Hpre as [-> Hpre]. by rewrite (IH Hpre).
Qed.

Lemma exec_seq p q s g k :
  re.exec (re.Seq p q) s g k = re.exec p s g (fun s' g' => re.exec q s' g' k).
Proof. reflexivity. Qed.

Lemma exec_group n p s g k :
  re.exec (re.Group n p) s g k
  = re.exec p s g (fun s' g' => k s' (<[n := re.consumed s s']> g')).
Proof. reflexivity. Qed.

Lemma exec_lit c s g k : re.exec (re.Lit c) (String c s) g k = k s g.
Proof. simpl. by rewrite Ascii.eqb_refl. Qed.

Lemma exec_lit_fail c s g k :
  re.stops (Ascii.eqb c) s = true -> re.exec (re.Lit c) s g k = None.
Proof.
  destruct s as [|c' s]; simpl; [done|]. by intros ->%negb_true_iff.
Qed.

Lemma exec_text t s g k : re.exec (re.text t) (t +:+ s) g k = k s g.
Proof.
  revert k. induction t as [|c t IH]; intros k; simpl; [done|].
  by rewrite Ascii.eqb_refl, IH.
Qed.

Lemma exec_opt_take p s g k r :
  re.exec p s g k = Some r -> re.exec (re.Opt p) s g k = Some r.
Proof. simpl. by intros ->. Qed.

Lemma exec_opt_skip p s g k :
  re.exec p s g k = None -> re.exec (re.Opt p) s g k = k s g.
Proof. simpl. by intros ->. Qed.

Lemma exec_star cls pre s' g k r :
  Py.all_chars cls pre = true -> re.stops cls s' = true -> k s' g = Some r ->
  re.exec (re.Star cls) (pre +:+ s') g k = Some r.
Proof. intros. simpl. by apply star_greedy. Qed.

Lemma exec_plus cls pre s' g k r :
  pre <> "" -> Py.all_chars cls pre = true -> re.stops cls s' = true ->
  k s' g = Some r ->
  re.exec (re.Plus cls) (pre +:+ s') g k = Some r.
Proof.
  intros Hne Hpre Hstop Hk. destruct pre as [|c pre]; [done|]. simpl in *.
  apply andb_true_iff in Hpre as [-> Hpre]. by apply star_greedy.
Qed.

Lemma exec_plus_fail cls s g k :
  re.stops cls s = true -> re.exec (re.Plus cls) s g k = None.
Proof.
  destruct s as [|c s]; simpl; [done|]. by intros ->%negb_true_iff.
Qed.

(** *** What a successful run tells about the string *)

Lemma star_inv cls s (k : string -> option A) r :
  re.star cls s k = Some r ->
  exists pre s',
    s = pre +:+ s' /\ Py.all_chars cls pre = true /\ k s' = Some r.
Proof.
  induction s as [|c s IH]; simpl.
  - intros Hk. by exists "", "".
  - destruct (cls c) eqn:Hc.
    + destruct (re.star cls s k) as [r'|] eqn:Hstar.
      * intros [= ->]. destruct (IH eq_refl) as (pre & s' & -> & Hpre & Hk).
        exists (String c pre), s'. simpl. by rewrite Hc, Hpre.
      * intros Hk. by exists "", (String c s).
    + intros Hk. by exists "", (String c s).
Qed.

Lemma star_total cls s (k : string -> option A) :
  (forall s', is_Some (k s')) -> is_Some (re.star cls s k).
Proof.
  intros Hk. induction s as [|c s IH]; simpl; [done|].
  destruct (cls c); [|done]. by destruct IH as [r ->].
Qed.

Lemma exec_lit_inv c s g k r :
  re.exec (re.Lit c) s g k = Some r ->
  exists s', s = String c s' /\ k s' g = Some r.
Proof.
  destruct s as [|c' s]; simpl; [done|].
  destruct (Ascii.eqb_spec c c') as [->|]; [|done]. by exists s.
Qed.

Lemma exec_text_inv t s g k r :
  re.exec (re.text t) s g k = Some r ->
  exists s', s = t +:+ s' /\ k s' g = Some r.
Proof.
  revert s k. induction t as [|c t IH]; intros s k; cbn [re.text].
  - by exists s.
  - rewrite exec_seq. intros (s1 & -> & H)%exec_lit_inv.
    destruct (IH _ _ H) as (s' & -> & Hk). by exists s'.
Qed.

Lemma exec_opt_inv p s g k r :
  re.exec (re.Opt p) s g k = Some r ->
  re.exec p s g k = Some r \/ k s g = Some r.
Proof. simpl. destruct (re.exec p s g k); [left | right]; done. Qed.

Lemma exec_opt_total p s g k :
  is_Some (k s g) -> is_Some (re.exec (re.Opt p) s g k).
Proof. simpl. by destruct (re.exec p s g k). Qed.

Lemma exec_star_inv cls s g k r :
  re.exec (re.Star cls) s g k = Some r ->
  exists pre s',
    s = pre +:+ s' /\ Py.all_chars cls pre = true /\ k s' g = Some r.
Proof. apply star_inv. Qed.

Lemma exec_plus_inv cls s g k r :
  re.exec (re.Plus cls) s g k = Some r ->
  exists pre s', s = pre +:+ s' /\ pre <> ""
                 /\ Py.all_chars cls pre = true /\ k s' g = Some r.
Proof.
  destruct s as [|c s]; simpl; [done|]. destruct (cls c) eqn:Hc; [|done].
  intros (pre & s' & -> & Hpre & Hk)%star_inv.
  exists (String c pre), s'. simpl. by rewrite Hc, Hpre.
Qed.

End MatcherFacts.

(** ** URL_REGEX *)

Section UrlRegex.
Import service.

Local Abbreviation path_pattern :=
  (re.Opt (re.Group 5 (re.Seq (re.Lit "/") (re.Star re.is_dot)))).
Local Abbreviation port_pattern :=
  (re.Opt (re.Group 3
             (re.Seq (re.Lit ":") (re.Group 4 (re.Plus re.is_digit))))).
Local Abbreviation URL_tail :=
  (re.Seq (re.text "://")
     (re.Seq (re.Group 2 (re.Star host_class))
        (re.Seq port_pattern path_pattern))).
Local Abbreviation finish := (fun (_ : string) (g : gmap nat string) => Some g).

(** The text of the port and of the path of a URL. *)
Local Abbreviation port_text port :=
  (match port with Some d => ":" +:+ d | None => "" end).
Local Abbreviation path_text path :=
  (match path with Some r => "/" +:+ r | None => "" end).

(** The groups a URL with these parts sets, on top of [g]. *)
Local Abbreviation port_groups port g :=
  (match port with
   | Some d => <[3%nat := ":" +:+ d]> (<[4%nat := d]> g)
   | None => g
   end).
Local Abbreviation path_groups path g :=
  (match path with Some r => <[5%nat := "/" +:+ r]> g | None => g end).

Lemma path_match (path : option string) (g : gmap nat string) :
  (forall r, path = Some r -> Spec.is_path_tail r = true) ->
  re.exec path_pattern (path_text path) g finish = Some (path_groups path g).
Proof.
  intros Hr. destruct path as [r|].
  - apply exec_opt_take. rewrite exec_group, exec_seq. simpl String.append.
    rewrite exec_lit. rewrite <- (str_app_nil_r r) at 1.
    apply exec_star; [by apply Hr | done |].
    by rewrite consumed_nil.
  - rewrite exec_opt_skip; [done|].
    rewrite exec_group, exec_seq. by apply exec_lit_fail.
Qed.

Lemma port_match {A} (port : option string) (Q : string) (g : gmap nat string)
    (k : string -> gmap nat string -> option A) (r : A) :
  (forall d, port = Some d -> Spec.is_port d = true) ->
  re.stops re.is_digit Q = true -> re.stops (Ascii.eqb ":") Q = true ->
  k Q (port_groups port g) = Some r ->
  re.exec port_pattern (port_text port +:+ Q) g k = Some r.
Proof.
  intros Hd HQ HQ' Hk. destruct port as [d|].
  - specialize (Hd d eq_refl). unfold Spec.is_port in Hd.
    apply exec_opt_take. rewrite exec_group, exec_seq.
    rewrite str_app_assoc. simpl String.append. rewrite exec_lit, exec_group.
    apply exec_plus; [by destruct d | by destruct d | done |].
    by rewrite consumed_app, consumed_cons.
  - rewrite exec_opt_skip; [done|].
    rewrite exec_group, exec_seq. by apply exec_lit_fail.
Qed.

(** The match object of [http[s]://host[:port][/path]]. *)
Lemma URL_REGEX_match_parts (s : bool) (host : string)
    (port path : option string) :
  Spec.is_host host = true ->
  (forall d, port = Some d -> Spec.is_port d = true) ->
  (forall r, path = Some r -> Spec.is_path_tail r = true) ->
  re.match_ URL_REGEX
    ("http" +:+ (if s then "s" else "") +:+ "://" +:+ host
       +:+ port_text port +:+ path_text path)
  = Some (path_groups path
            (port_groups port
               (<[2%nat := host]> (if s then {[ 1%nat := "s" ]} else ∅)))).
Proof.
  intros Hh Hd Hr. unfold re.match_, URL_REGEX.
  rewrite exec_seq, exec_text, exec_seq.
  set (Q := path_text path). set (P := port_text port).
  assert (HQ : re.stops re.is_digit Q = true /\ re.stops host_class Q = true
               /\ re.stops (Ascii.eqb ":") Q = true).
  { subst Q. by destruct path. }
  assert (HP : re.stops host_class (P +:+ Q) = true).
  { subst P. destruct port; [done|]. simpl. apply HQ. }
  assert (Htail : forall g,
    re.exec URL_tail ("://" +:+ host +:+ P +:+ Q) g finish
    = Some (path_groups path (port_groups port (<[2%nat := host]> g)))).
  { intros g. rewrite exec_seq, exec_text, exec_seq, exec_group.
    apply exec_star; [done..|]. rewrite exec_seq, consumed_app.
    apply port_match; [done | apply HQ | apply HQ |].
    subst Q. by rewrite path_match. }
  destruct s.
  - apply exec_opt_take. rewrite exec_group. simpl String.append.
    rewrite exec_lit, consumed_one. apply Htail.
  - rewrite exec_opt_skip; [apply Htail|].
    rewrite exec_group. by apply exec_lit_fail.
Qed.

Lemma path_inv (s : string) (g m : gmap nat string) :
  re.exec path_pattern s g finish = Some m ->
  m !! 1%nat = g !! 1%nat /\ m !! 3%nat = g !! 3%nat
  /\ m !! 4%nat = g !! 4%nat.
Proof.
  intros [H|H]%exec_opt_inv.
  - rewrite exec_group, exec_seq in H.
    apply exec_lit_inv in H as (s1 & -> & H).
    apply exec_star_inv in H as (pre & s2 & -> & _ & [= <-]).
    by rewrite !lookup_insert_ne.
  - by injection H as <-.
Qed.

Lemma port_inv (s : string) (g m : gmap nat string) :
  re.exec port_pattern s g (fun s' g' => re.exec path_pattern s' g' finish)
    = Some m ->
  m !! 1%nat = g !! 1%nat /\
  (m !! 3%nat = g !! 3%nat \/
   exists d, m !! 4%nat = Some d /\ Spec.is_port d = true).
Proof.
  intros [H|H]%exec_opt_inv.
  - rewrite exec_group, exec_seq in H.
    apply exec_lit_inv in H as (s1 & -> & H). rewrite exec_group in H.
    apply exec_plus_inv in H as (d & s2 & -> & Hne & Hd & H).
    rewrite consumed_app in H. apply path_inv in H as (-> & _ & ->).
    split; [by rewrite !lookup_insert_ne|]. right. exists d.
    rewrite lookup_insert_ne, lookup_insert_eq by done.
    split; [done|]. by destruct d.
  - apply path_inv in H as (-> & -> & _). by split; [|left].
Qed.

Lemma tail_inv (s : string) (g m : gmap nat string) :
  re.exec URL_tail s g finish = Some m ->
  (exists s', s = "://" +:+ s') /\
  m !! 1%nat = g !! 1%nat /\
  (m !! 3%nat = g !! 3%nat \/
   exists d, m !! 4%nat = Some d /\ Spec.is_port d = true).
Proof.
  rewrite exec_seq.
  intros (s1 & -> & H)%exec_text_inv. split; [by exists s1|].
  rewrite exec_seq, exec_group in H.
  apply exec_star_inv in H as (host & s2 & -> & _ & H).
  rewrite exec_seq in H. apply port_inv in H as [H1 H3].
  rewrite !lookup_insert_ne in H3 by done. by rewrite lookup_insert_ne in H1.
Qed.

Lemma tail_total (s : string) (g : gmap nat string) :
  is_Some (re.exec URL_tail ("://" +:+ s) g finish).
Proof.
  rewrite exec_seq, exec_text, exec_seq, exec_group.
  apply star_total. intros s'. rewrite exec_seq. apply exec_opt_total.
  by apply exec_opt_total.
Qed.

(** A match means a scheme: the string starts with [http://], and group 1
    is unset, or with [https://], and group 1 is set; group 4 is a port
    whenever group 3 is set. *)
Lemma URL_REGEX_match_inv (url : string) (m : gmap nat string) :
  re.match_ URL_REGEX url = Some m ->
  ((exists rest, url = "http://" +:+ rest) /\ re.group m 1 = None
   \/ (exists rest, url = "https://" +:+ rest) /\ re.group m 1 = Some "s")
  /\ (re.group m 3 = None
      \/ exists d, re.group m 4 = Some d /\ Spec.is_port d = true).
Proof.
  unfold re.match_, URL_REGEX, re.group. rewrite exec_seq.
  intros (s1 & -> & H)%exec_text_inv. rewrite exec_seq in H.
  apply exec_opt_inv in H as [H|H].
  - rewrite exec_group in H. apply exec_lit_inv in H as (s2 & -> & H).
    rewrite consumed_one in H.
    apply tail_inv in H as ((s3 & ->) & H1 & H3).
    rewrite lookup_insert_eq in H1. rewrite lookup_insert_ne in H3 by done.
    split; [right; split; [by exists s3 | done] | done].
  - apply tail_inv in H as ((s3 & ->) & H1 & H3).
    split; [left; split; [by exists s3 | done] | done].
Qed.

(** Every string with a scheme matches. *)
Lemma URL_REGEX_match_total (s : bool) (rest : string) :
  is_Some (re.match_ URL_REGEX
             ("http" +:+ (if s then "s" else "") +:+ "://" +:+ rest)).
Proof.
  unfold re.match_, URL_REGEX. rewrite exec_seq, exec_text, exec_seq.
  destruct s.
  - simpl String.append.
    destruct (tail_total rest
                (<[1%nat := re.consumed (String "s" ("://" +:+ rest))
                               ("://" +:+ rest)]> ∅)) as [m Hm].
    exists m. apply exec_opt_take. rewrite exec_group, exec_lit. exact Hm.
  - rewrite exec_opt_skip; [apply tail_total|].
    rewrite exec_group. by apply exec_lit_fail.
Qed.

End UrlRegex.

(** ** AtomService._ProcessUrl *)

Section ProcessUrl.
Import Py service.

(** [decimal] reads positional notation: one more digit on the right is
    ten times the number so far plus that digit. *)
Lemma decimal_snoc (digits : string) (c : ascii) :
  Spec.decimal (digits +:+ String c "")
  = (10 * Spec.decimal digits + digit_value c)%Z.
Proof.
  unfold Spec.decimal. generalize 0%Z as acc.
  induction digits as [|x digits IH]; intros acc; simpl; [done|].
  apply IH.
Qed.

Lemma int_port (d : string) :
  Spec.is_port d = true -> int (Some d) = Ok (Spec.decimal d).
Proof.
  unfold Spec.is_port, int. destruct d as [|c d]; [done|]. by intros ->.
Qed.

(** [_ProcessUrl] raises nothing, whatever the string. *)
Lemma ProcessUrl_total (self : AtomService) (url : string) :
  exists server port ssl uri,
    _ProcessUrl self url = Ok (server, port, ssl, uri).
Proof.
  unfold _ProcessUrl. destruct (re.match_ URL_REGEX url) as [m|] eqn:Hm.
  - apply URL_REGEX_match_inv in Hm as [_ [H3|(d & H4 & Hd)]].
    + rewrite H3. destruct (re.group m 1); eauto.
    + rewrite H4, (int_port d Hd).
      destruct (re.group m 1), (re.group m 3); eauto.
  - eauto.
Qed.

(** What [_ProcessUrl] returns on [http[s]://host[:port][/path]]. *)
Lemma ProcessUrl_absolute (self : AtomService) (https : bool) (host : string)
    (port path : option string) :
  Spec.well_formed host port path = true ->
  _ProcessUrl self (Spec.absolute_url https host port path)
  = Ok (Some host,
        match port with
        | Some d => Spec.decimal d
        | None => if https then 443%Z else self.(service.port)
        end,
        if https then true else self.(ssl),
        match path with Some r => "/" +:+ r | None => "/" end).
Proof.
  unfold Spec.well_formed.
  intros [[Hh Hd]%andb_true_iff Hr]%andb_true_iff.
  unfold _ProcessUrl, Spec.absolute_url.
  rewrite URL_REGEX_match_parts;
    [| done | by intros d -> | by intros r ->].
  unfold re.group.
  destruct https, port as [d|], path as [r|];
    repeat first
      [ rewrite lookup_insert_eq
      | rewrite lookup_insert_ne by done
      | rewrite lookup_singleton_eq
      | rewrite lookup_singleton_ne by done
      | rewrite lookup_empty ];
    rewrite ?(int_port d Hd); reflexivity.
Qed.

(** A string without scheme does not match. *)
Lemma URL_REGEX_no_scheme (url : string) :
  String.prefix "http://" url = false ->
  String.prefix "https://" url = false ->
  re.match_ URL_REGEX url = None.
Proof.
  intros Hhttp Hhttps.
  destruct (re.match_ URL_REGEX url) as [m|] eqn:Hm; [|done].
  apply URL_REGEX_match_inv in Hm as [[[[rest ->] _]|[[rest ->] _]] _].
  - simpl in Hhttp. by destruct rest.
  - simpl in Hhttps. by destruct rest.
Qed.

(** C2 (as stated, refuted): on [https://host:8080/path] the resolved port
    is 8080, not 443. *)
Lemma ProcessUrl_https_port_counterexample :
  _ProcessUrl Fixture.client "https://host:8080/path"
    = Ok (Some "host", 8080%Z, true, "/path")
  /\ ~ (exists server uri,
          _ProcessUrl Fixture.client "https://host:8080/path"
            = Ok (server, 443%Z, true, uri)).
Proof.
  assert (H : _ProcessUrl Fixture.client "https://host:8080/path"
              = Ok (Some "host", 8080%Z, true, "/path")) by reflexivity.
  split; [exact H|]. intros (server & uri & H'). rewrite H in H'.
  discriminate H'.
Qed.

(** C2 (amended): for every absolute https URL, resolution yields
    useEncryption = true and the captured host; the port is 443 when the
    URL carries no port of its own, and the number N written in the URL for
    [https://host:N/path]. *)
Theorem ProcessUrl_https (self : AtomService) (host : string)
    (port path : option string)
    (Hurl : Spec.well_formed host port path = true) :
  _ProcessUrl self (Spec.absolute_url true host port path)
  = Ok (Some host,
        match port with Some d => Spec.decimal d | None => 443%Z end,
        true,
        match path with Some r => "/" +:+ r | None => "/" end).
Proof. by rewrite ProcessUrl_absolute. Qed.

(** C3 (as stated, refuted): a client whose [ssl] attribute is set keeps
    encryption on for [http://host:8080/path]. *)
Lemma ProcessUrl_http_port_counterexample :
  _ProcessUrl Fixture.secure_client "http://host:8080/path"
    = Ok (Some "host", 8080%Z, true, "/path")
  /\ _ProcessUrl Fixture.secure_client "http://host:8080/path"
     <> Ok (Some "host", 8080%Z, false, "/path").
Proof. split; [reflexivity | discriminate]. Qed.

(** C3 (amended): for every URL [http://host:port/path], resolution yields
    the captured host, the port written in the URL as an integer, the
    client's own encryption setting (off unless the client was configured
    otherwise) and the captured path. *)
Theorem ProcessUrl_http_port (self : AtomService) (host digits rest : string)
    (Hurl : Spec.well_formed host (Some digits) (Some rest) = true) :
  _ProcessUrl self ("http://" +:+ host +:+ ":" +:+ digits +:+ "/" +:+ rest)
  = Ok (Some host, Spec.decimal digits, self.(ssl), "/" +:+ rest).
Proof.
  rewrite <- (ProcessUrl_absolute self false host (Some digits) (Some rest))
    by done.
  reflexivity.
Qed.

(** C4: a string that does not match the URL pattern, in particular one
    that starts with neither [http://] nor [https://], raises nothing and
    is returned whole as the uri, next to the client's own server, port
    and encryption setting. *)
Theorem ProcessUrl_no_match (self : AtomService) (url : string)
    (Hurl : re.match_ URL_REGEX url = None
            \/ (String.prefix "http://" url = false
                /\ String.prefix "https://" url = false)) :
  _ProcessUrl self url
  = Ok (self.(server), self.(service.port), self.(ssl), url).
Proof.
  assert (Hm : re.match_ URL_REGEX url = None).
  { destruct Hurl as [H|[H1 H2]]; [done|]. by apply URL_REGEX_no_scheme. }
  unfold _ProcessUrl. by rewrite Hm.
Qed.

End ProcessUrl.

(** ** The client and the world *)

Section Requests.
Import Py World service.
Context {ET : ElementTree} {net : httplib}.

Lemma bind_run {A B} (m : M A) (k : A -> M B) (w : world) :
  bind m k w
  = match m w with
    | (Ok a, w') => k a w'
    | (Raise e, w') => (Raise e, w')
    end.
Proof. reflexivity. Qed.

Lemma dict_setitem_run (l : nat) (k : string) (v : value) (w : world)
    (d : gmap string value) :
  heap w !! l = Some d ->
  dict_setitem l k v w
  = (Ok tt, {| heap := <[l := <[k := v]> d]> (heap w); wire := wire w |}).
Proof. unfold dict_setitem. by intros ->. Qed.

Lemma dict_read_run (l : nat) (w : world) (d : gmap string value) :
  heap w !! l = Some d -> dict_read l w = (Ok d, w).
Proof. unfold dict_read. by intros ->. Qed.

(** The header lines a loop over a dict adds, and nothing else changes. *)
Lemma putheaders_fold (c : connection) (l : list (string * value)) :
  let c' := foldl (fun c kv => putheader c kv.1 kv.2) c l in
  conn_headers c' = (conn_headers c ++ l)%list
  /\ conn_method c' = conn_method c /\ conn_selector c' = conn_selector c
  /\ conn_host c' = conn_host c /\ conn_port c' = conn_port c
  /\ conn_ssl c' = conn_ssl c.
Proof.
  revert c. induction l as [|[k v] l IH]; intros c; simpl.
  - by rewrite app_nil_r.
  - destruct (IH (putheader c k v)) as (-> & -> & -> & -> & -> & ->).
    simpl. by rewrite <- app_assoc.
Qed.

Lemma putheaders_headers (c : connection) (d : gmap string value) :
  conn_headers (putheaders c d) = (conn_headers c ++ map_to_list d)%list.
Proof. apply putheaders_fold. Qed.

Lemma putheaders_method (c : connection) (d : gmap string value) :
  conn_method (putheaders c d) = conn_method c.
Proof. apply putheaders_fold. Qed.

(** Given its dicts, [_CreateConnection] composes one request, with the
    client's lines and then the caller's, and asks for its header block
    to go out. *)
Lemma CreateConnection_run (self : AtomService) (uri op : string)
    (extra_headers : option nat) (url_params : option (gmap string string))
    (escape_params : bool) (w : world) (da : gmap string value) :
  heap w !! self.(additional_headers) = Some da ->
  (forall l, extra_headers = Some l -> is_Some (heap w !! l)) ->
  exists c,
    _CreateConnection self uri op extra_headers url_params escape_params w
    = (match net_endheaders (wire w) c with
       | Ok _ => Ok c
       | Raise e => Raise e
       end,
       {| heap := heap w; wire := wire w ++ [EndHeaders c] |})
    /\ conn_method c = op
    /\ conn_headers c
       = (map_to_list da
          ++ match extra_headers with
             | Some l => map_to_list (default ∅ (heap w !! l))
             | None => []
             end)%list
    /\ _ProcessUrl self (BuildUri uri url_params escape_params)
       = Ok (conn_host c, conn_port c, conn_ssl c, conn_selector c).
Proof.
  intros Hda Hextra.
  destruct (ProcessUrl_total self (BuildUri uri url_params escape_params))
    as (sv & pt & sl & u & Hurl).
  set (c0 := {| conn_ssl := sl; conn_host := sv; conn_port := pt;
                conn_method := op; conn_selector := u;
                conn_headers := [] |}).
  set (c1 := putheaders c0 da).
  set (c2 := match extra_headers with
             | Some l => putheaders c1 (default ∅ (heap w !! l))
             | None => c1
             end).
  exists c2.
  pose proof (putheaders_fold c0 (map_to_list da))
    as (Hh1 & Hm1 & Hs1 & Ho1 & Hp1 & Hl1).
  fold (putheaders c0 da) in Hh1, Hm1, Hs1, Ho1, Hp1, Hl1.
  fold c1 in Hh1, Hm1, Hs1, Ho1, Hp1, Hl1.
  assert (H2 : conn_method c2 = op /\ conn_selector c2 = u
               /\ conn_host c2 = sv /\ conn_port c2 = pt
               /\ conn_ssl c2 = sl
               /\ conn_headers c2
                  = (map_to_list da
                     ++ match extra_headers with
                        | Some l => map_to_list (default ∅ (heap w !! l))
                        | None => []
                        end)%list).
  { subst c2. destruct extra_headers as [l|].
    - pose proof (putheaders_fold c1 (map_to_list (default ∅ (heap w !! l))))
        as (Hh2 & Hm2 & Hs2 & Ho2 & Hp2 & Hl2).
      fold (putheaders c1 (default ∅ (heap w !! l)))
        in Hh2, Hm2, Hs2, Ho2, Hp2, Hl2.
      rewrite Hh2, Hm2, Hs2, Ho2, Hp2, Hl2, Hh1, Hm1, Hs1, Ho1, Hp1, Hl1.
      done.
    - rewrite Hh1, Hm1, Hs1, Ho1, Hp1, Hl1. by rewrite app_nil_r. }
  destruct H2 as (Hm2 & Hs2 & Ho2 & Hp2 & Hl2 & Hh2).
  split; [|split; [done|split; [done|]]].
  - unfold _CreateConnection, bind, lift, ret, endheaders, dict_read.
    rewrite Hurl, Hda. fold c0. fold c1. subst c2.
    destruct extra_headers as [l|].
    + destruct (Hextra l eq_refl) as [d Hd]. rewrite Hd. simpl.
      by destruct (net_endheaders _ _).
    + by destruct (net_endheaders _ _).
  - by rewrite Ho2, Hp2, Hl2, Hs2.
Qed.

End Requests.

(** ** Post and Put *)

Section BodiedVerbs.
Import Py World service.
Context {ET : ElementTree} {net : httplib}.

Lemma CreateConnection_heap (self : AtomService) (uri op : string)
    (extra_headers : option nat) (url_params : option (gmap string string))
    (escape_params : bool) (w : world) :
  heap (_CreateConnection self uri op extra_headers url_params escape_params
          w).2 = heap w.
Proof.
  unfold _CreateConnection, bind, lift, ret, endheaders, dict_read.
  destruct (_ProcessUrl _ _) as [[[[sv pt] sl] u]|e]; [|done].
  destruct (heap w !! additional_headers self); [|done].
  destruct extra_headers as [l|]; [destruct (heap w !! l)|]; simpl;
    try done; by destruct (net_endheaders _ _).
Qed.

(** After the two item assignments nothing touches the heap any more. *)
Lemma request_heap (self : AtomService) (uri op data_str : string)
    (extra_headers : option nat) (url_params : option (gmap string string))
    (escape_params : bool) (w : world) :
  heap (bind (_CreateConnection self uri op extra_headers url_params
                escape_params)
          (fun c => bind (send c data_str) (fun _ => getresponse c)) w).2
  = heap w.
Proof.
  rewrite bind_run.
  pose proof (CreateConnection_heap self uri op extra_headers url_params
                escape_params w) as Hc.
  destruct (_CreateConnection _ _ _ _ _ _ w) as [[c|e] w1]; simpl in *;
    [|done].
  unfold bind, send, getresponse. simpl.
  destruct (net_send _ _ _); simpl; [|done]. done.
Qed.

Lemma set_content_headers (l : nat) (data_str content_type : string)
    (d : gmap string value) (w : world) :
  heap w !! l = Some d ->
  bind (setitem (Some l) "Content-Length"
          (VInt (Z.of_nat (String.length data_str))))
    (fun _ => setitem (Some l) "Content-Type" (VStr content_type)) w
  = (Ok tt,
     {| heap := <[l := Spec.with_content_headers data_str content_type d]>
                 (heap w);
        wire := wire w |}).
Proof.
  intros Hd. rewrite bind_run. unfold setitem.
  rewrite (dict_setitem_run _ _ _ _ _ Hd).
  erewrite dict_setitem_run by apply lookup_insert_eq. simpl.
  by rewrite insert_insert_eq.
Qed.

(** [Post] and [Put] are the same computation but for the method. *)
Lemma Post_unfold (self : AtomService) (data : data) (uri : string)
    (extra_headers : option nat) (url_params : option (gmap string string))
    (escape_params : bool) (content_type : string) (w : world) :
  Post self data uri extra_headers url_params escape_params content_type w
  = match serialize data with
    | Ok data_str =>
        match bind (setitem extra_headers "Content-Length"
                      (VInt (Z.of_nat (String.length data_str))))
                (fun _ => setitem extra_headers "Content-Type"
                            (VStr content_type)) w with
        | (Ok _, w') =>
            bind (_CreateConnection self uri "POST" extra_headers url_params
                    escape_params)
              (fun c => bind (send c data_str) (fun _ => getresponse c)) w'
        | (Raise e, w') => (Raise e, w')
        end
    | Raise e => (Raise e, w)
    end.
Proof.
  unfold Post, bind, lift.
  destruct (serialize data) as [s|e]; [|done].
  destruct (setitem extra_headers "Content-Length" _ w) as [[[]|e] w1];
    [|done].
  by destruct (setitem extra_headers "Content-Type" _ w1) as [[[]|e] w2].
Qed.

Lemma Put_unfold (self : AtomService) (data : data) (uri : string)
    (extra_headers : option nat) (url_params : option (gmap string string))
    (escape_params : bool) (content_type : string) (w : world) :
  Put self data uri extra_headers url_params escape_params content_type w
  = match serialize data with
    | Ok data_str =>
        match bind (setitem extra_headers "Content-Length"
                      (VInt (Z.of_nat (String.length data_str))))
                (fun _ => setitem extra_headers "Content-Type"
                            (VStr content_type)) w with
        | (Ok _, w') =>
            bind (_CreateConnection self uri "PUT" extra_headers url_params
                    escape_params)
              (fun c => bind (send c data_str) (fun _ => getresponse c)) w'
        | (Raise e, w') => (Raise e, w')
        end
    | Raise e => (Raise e, w)
    end.
Proof.
  unfold Put, bind, lift.
  destruct (serialize data) as [s|e]; [|done].
  destruct (setitem extra_headers "Content-Length" _ w) as [[[]|e] w1];
    [|done].
  by destruct (setitem extra_headers "Content-Type" _ w1) as [[[]|e] w2].
Qed.


End BodiedVerbs.

Section VerbClaims.
Import Py World service.
Context {ET : ElementTree} {net : httplib}.

(** The first lines of [Post] and [Put] yield the serialized body. *)
Lemma serialize_body_text (data : data) (data_str : string) :
  Spec.body_text data data_str -> serialize data = Ok data_str.
Proof. destruct data as [e|s|str_]; simpl; by intros ->. Qed.

(** C1 (not met by the code): [Post] and [Put] called with
    [extra_headers = None] are meant not to fail. As written they raise on
    every input, a [TypeError] from the item assignment on [None] unless
    the body already failed to serialize, and leave the world as it was:
    no header dict is allocated. *)
Theorem Post_Put_None_raise (self : AtomService) (data : data) (uri : string)
    (url_params : option (gmap string string)) (escape_params : bool)
    (content_type : string) (w : world) :
  let e := match serialize data with Ok _ => TypeError | Raise e => e end in
  Post self data uri None url_params escape_params content_type w
    = (Raise e, w)
  /\ Put self data uri None url_params escape_params content_type w
     = (Raise e, w).
Proof.
  simpl. rewrite Post_unfold, Put_unfold.
  by destruct (serialize data).
Qed.


(** C10 (as stated, refuted): an empty dict handed to the constructor is
    not the one the client uses and gains no [User-Agent] entry. *)
Lemma init_empty_dict_counterexample :
  heap Fixture.world_empty_dict !! 0%nat = Some ∅
  /\ (__init__ (Some "example.com") (Some 0%nat) Fixture.world_empty_dict).1
     = Ok {| server := Some "example.com"; port := 80; ssl := false;
             additional_headers := 1%nat |}
  /\ heap (__init__ (Some "example.com") (Some 0%nat)
             Fixture.world_empty_dict).2 !! 0%nat
     = Some ∅.
Proof. split; [|split]; reflexivity. Qed.

(** C10 (amended): the client uses the caller's dicts themselves. A
    non-empty dict handed to the constructor becomes the client's header
    dict and gets the [User-Agent] entry; an empty one is left alone and
    the client takes a new dict. The dict handed to [Post] or [Put] holds
    the [Content-Length] and [Content-Type] entries after the call,
    provided the body serializes. *)
Theorem caller_dicts_mutated (self : AtomService) (server : option string)
    (data : data) (uri : string) (l : nat)
    (url_params : option (gmap string string)) (escape_params : bool)
    (content_type : string) (w : world) (d : gmap string value)
    (Hd : heap w !! l = Some d) :
  let user_agent := VStr "Python Google Data Client Lib" in
  (d <> ∅ ->
   __init__ server (Some l) w
   = (Ok {| server := server; port := 80; ssl := false;
            additional_headers := l |},
      {| heap := <[l := <["User-Agent" := user_agent]> d]> (heap w);
         wire := wire w |}))
  /\ (d = ∅ ->
      exists l', l' <> l
        /\ __init__ server (Some l) w
           = (Ok {| server := server; port := 80; ssl := false;
                    additional_headers := l' |},
              {| heap := <[l' := {[ "User-Agent" := user_agent ]}]> (heap w);
                 wire := wire w |}))
  /\ (forall data_str, serialize data = Ok data_str ->
      heap (Post self data uri (Some l) url_params escape_params
              content_type w).2
        = <[l := Spec.with_content_headers data_str content_type d]> (heap w)
      /\ heap (Put self data uri (Some l) url_params escape_params
                 content_type w).2
         = <[l := Spec.with_content_headers data_str content_type d]>
             (heap w)).
Proof.
  intros user_agent. split; [|split].
  - intros Hne. unfold __init__, bind, dict_read. rewrite Hd.
    rewrite bool_decide_eq_false_2 by done. unfold ret at 1.
    by rewrite (dict_setitem_run _ _ _ _ _ Hd).
  - intros ->. exists (fresh (dom (heap w))).
    assert (Hfresh : fresh (dom (heap w)) ∉ dom (heap w)) by apply is_fresh.
    split.
    { intros Heq. apply Hfresh. rewrite Heq. apply elem_of_dom. by eexists. }
    unfold __init__, bind, dict_read. rewrite Hd.
    rewrite bool_decide_eq_true_2 by done. unfold dict_new.
    erewrite dict_setitem_run by apply lookup_insert_eq. simpl.
    by rewrite insert_insert_eq, insert_empty.
  - intros data_str Hdata. rewrite Post_unfold, Put_unfold, Hdata.
    rewrite (set_content_headers l data_str content_type d w Hd).
    by rewrite !request_heap.
Qed.

End VerbClaims.

(** ** base64.encodestring and strip *)

(** Quotients and remainders by constants, over [N]. *)
Ltac ndiv := zify; Z.quot_rem_to_equations; Z.div_mod_to_equations; lia.

Section Base64.
Import Py.

Lemma b64_char_printable (n : N) : printable (base64.b64_char n) = true.
Proof.
  unfold base64.b64_char.
  remember (N.to_nat n) as k eqn:Hk. clear Hk n.
  do 65 (destruct k as [|k]; [reflexivity|]). reflexivity.
Qed.

Lemma b64_printable (s : string) :
  all_chars printable (base64.b64 s) = true
  /\ (forall a, all_chars printable (base64.b64 (String a s)) = true)
  /\ (forall a b,
        all_chars printable (base64.b64 (String a (String b s))) = true).
Proof.
  induction s as [|c s (IH0 & IH1 & IH2)].
  - split; [done|]. split; intros; cbn [base64.b64 all_chars];
      by rewrite !b64_char_printable.
  - split; [apply IH1|]. split; [intros a; apply IH2|].
    intros a b. cbn [base64.b64 all_chars]. by rewrite !b64_char_printable, IH0.
Qed.

Lemma b64_nonempty (s : string) : s <> "" -> base64.b64 s <> "".
Proof. destruct s as [|a [|b [|c s]]]; done. Qed.


Lemma rstrip_app (a b : string) :
  rstrip b <> "" -> rstrip (a +:+ b) = a +:+ rstrip b.
Proof.
  intros Hb. induction a as [|c a IH]; simpl; [done|].
  rewrite IH. destruct a as [|c' a]; simpl; [by destruct (rstrip b)|done].
Qed.

Lemma rstrip_app_space (a b : string) :
  rstrip b = "" -> rstrip (a +:+ b) = rstrip a.
Proof.
  intros Hb. induction a as [|c a IH]; simpl; [done|]. by rewrite IH.
Qed.

Lemma rstrip_printable (s : string) :
  all_chars printable s = true -> rstrip s = s.
Proof.
  induction s as [|c s IH]; simpl; [done|].
  intros [Hc Hs]%andb_true_iff. rewrite (IH Hs).
  apply negb_true_iff in Hc. rewrite Hc. by destruct s.
Qed.

Lemma lstrip_app (a b : string) :
  a <> "" -> lstrip a = a -> lstrip (a +:+ b) = a +:+ b.
Proof.
  destruct a as [|c a]; [done|]. simpl. intros _.
  destruct (isspace c) eqn:Hc; [|done].
  intros H. exfalso.
  assert (Hlen : forall s, String.length (lstrip s) <= String.length s).
  { clear. induction s as [|x s IH]; simpl; [lia|].
    destruct (isspace x); simpl; lia. }
  specialize (Hlen a). rewrite H in Hlen. simpl in Hlen. lia.
Qed.

Lemma trimmed_printable (s : string) :
  s <> "" -> all_chars printable s = true -> Spec.trimmed s.
Proof.
  intros Hne Hs. split; [done|]. split; [|by apply rstrip_printable].
  destruct s as [|c s]; [done|]. simpl in *.
  apply andb_true_iff in Hs as [Hc _]. apply negb_true_iff in Hc.
  by rewrite Hc.
Qed.

Lemma trimmed_lines (a b : string) :
  Spec.trimmed a -> Spec.trimmed b -> Spec.trimmed (a +:+ String newline b).
Proof.
  intros (Ha & Hla & Hra) (Hb & Hlb & Hrb). split; [by destruct a|].
  split; [by apply lstrip_app|].
  rewrite rstrip_app.
  - f_equal. simpl. rewrite Hrb. by destruct b.
  - simpl. rewrite Hrb. by destruct b.
Qed.

Lemma strip_line (a : string) :
  Spec.trimmed a -> strip (a +:+ String newline "") = a.
Proof.
  intros (Ha & Hla & Hra). unfold strip.
  rewrite lstrip_app by done. by rewrite rstrip_app_space.
Qed.

Lemma take_nonempty (n : nat) (s : string) :
  s <> "" -> take (S n) s <> "".
Proof. by destruct s. Qed.

Lemma length_drop (n : nat) (s : string) :
  String.length (drop n s) = String.length s - n.
Proof.
  revert s. induction n as [|n IH]; intros [|c s]; simpl; try done; lia.
Qed.

Lemma take_short (n : nat) (s : string) :
  String.length s <= n -> take n s = s.
Proof.
  revert s. induction n as [|n IH]; intros [|c s]; simpl; try done; [lia|].
  intros H. rewrite IH; [done | lia].
Qed.

Lemma drop_short (n : nat) (s : string) :
  String.length s <= n -> drop n s = "".
Proof.
  revert s. induction n as [|n IH]; intros [|c s]; simpl; try done; [lia|].
  intros H. apply IH. lia.
Qed.

Lemma encode_pieces_empty (fuel : nat) : base64.encode_pieces fuel "" = "".
Proof. by destruct fuel. Qed.

Lemma encode_pieces_trimmed (fuel : nat) (s : string) :
  s <> "" -> String.length s <= fuel ->
  exists x, base64.encode_pieces fuel s = x +:+ String newline ""
            /\ Spec.trimmed x.
Proof.
  revert s. induction fuel as [|fuel IH]; intros s Hne Hlen.
  { destruct s; [done | simpl in Hlen; lia]. }
  cbn [base64.encode_pieces]. destruct s as [|c s]; [done|].
  set (s0 := String c s) in *.
  assert (Hline : Spec.trimmed (base64.b64 (take base64.MAXBINSIZE s0))).
  { apply trimmed_printable; [|apply b64_printable].
    apply b64_nonempty. by apply take_nonempty. }
  unfold base64.b2a_base64.
  destruct (drop base64.MAXBINSIZE s0) as [|c' s'] eqn:Hdrop.
  - rewrite encode_pieces_empty. eexists. split; [|exact Hline].
    by rewrite str_app_nil_r.
  - destruct (IH (String c' s')) as (x & -> & Hx); [done| |].
    { rewrite <- Hdrop, length_drop. change base64.MAXBINSIZE with 57.
      simpl in *. lia. }
    exists (base64.b64 (take base64.MAXBINSIZE s0) +:+ String newline x).
    split; [|by apply trimmed_lines].
    rewrite !str_app_assoc. done.
Qed.

(** More fuel than the length of the input changes nothing. *)
Lemma encode_pieces_fuel (fuel : nat) (s : string) :
  String.length s <= fuel ->
  base64.encode_pieces fuel s = base64.encodestring s.
Proof.
  unfold base64.encodestring.
  remember (String.length s) as n eqn:Hn.
  assert (Hle : String.length s <= n) by lia. clear Hn.
  revert s fuel Hle. induction n as [|n IH]; intros s fuel Hle Hfuel.
  - destruct s; [|simpl in Hle; lia]. by rewrite encode_pieces_empty.
  - destruct fuel as [|fuel]; [lia|]. cbn [base64.encode_pieces].
    destruct s as [|c s]; [done|]. f_equal.
    apply IH; rewrite ?length_drop; change base64.MAXBINSIZE with 57;
      simpl in *; lia.
Qed.

Lemma strip_encodestring (s : string) :
  s <> "" ->
  base64.encodestring s = strip (base64.encodestring s) +:+ String newline ""
  /\ Spec.trimmed (strip (base64.encodestring s)).
Proof.
  intros Hne.
  destruct (encode_pieces_trimmed (String.length s) s Hne) as (x & Hx & Htr);
    [lia|].
  unfold base64.encodestring. rewrite Hx. by rewrite strip_line.
Qed.

Lemma strip_encodestring_short (s : string) :
  s <> "" -> String.length s <= base64.MAXBINSIZE ->
  strip (base64.encodestring s) = base64.b64 s.
Proof.
  intros Hne Hlen. unfold base64.encodestring.
  destruct s as [|c s]; [done|]. cbn [String.length base64.encode_pieces].
  rewrite take_short, drop_short, encode_pieces_empty by done.
  rewrite str_app_nil_r. unfold base64.b2a_base64. apply strip_line.
  apply trimmed_printable; [by apply b64_nonempty | apply b64_printable].
Qed.

(** *** Line feeds in the stripped encoding *)

Lemma all_chars_app (p : ascii -> bool) (a b : string) :
  all_chars p (a +:+ b) = all_chars p a && all_chars p b.
Proof.
  induction a as [|c a IH]; simpl; [done|]. by rewrite IH, andb_assoc.
Qed.

Lemma contains_all_chars (p : ascii -> bool) (c : ascii) (s : string) :
  all_chars p s = true -> p c = false -> contains c s = false.
Proof.
  intros Hs Hc. induction s as [|x s IH]; simpl in *; [done|].
  apply andb_true_iff in Hs as [Hx Hs].
  destruct (Ascii.eqb_spec c x) as [->|_]; [congruence | by apply IH].
Qed.

Lemma encodestring_long (s : string) :
  57 < String.length s ->
  contains newline (strip (base64.encodestring s)) = true.
Proof.
  intros Hlen. unfold base64.encodestring.
  destruct s as [|c s]; [simpl in Hlen; lia|].
  cbn [String.length base64.encode_pieces]. set (s0 := String c s) in *.
  assert (Hrest : drop base64.MAXBINSIZE s0 <> "").
  { intros Heq. pose proof (length_drop base64.MAXBINSIZE s0) as Hl.
    rewrite Heq in Hl. change base64.MAXBINSIZE with 57 in Hl.
    change (String.length "") with 0 in Hl. lia. }
  destruct (encode_pieces_trimmed (String.length s)
              (drop base64.MAXBINSIZE s0) Hrest) as (x & -> & Hx).
  { rewrite length_drop. change base64.MAXBINSIZE with 57.
    subst s0. cbn [String.length]. lia. }
  assert (Hline : Spec.trimmed (base64.b64 (take base64.MAXBINSIZE s0))).
  { apply trimmed_printable; [|apply b64_printable].
    apply b64_nonempty. by apply take_nonempty. }
  unfold base64.b2a_base64. rewrite !str_app_assoc.
  replace (String newline "" +:+ x +:+ String newline "")
    with (String newline x +:+ String newline "") by reflexivity.
  rewrite <- str_app_assoc.
  rewrite strip_line by (by apply trimmed_lines).
  rewrite contains_app. simpl. by rewrite orb_true_r.
Qed.

Lemma encodestring_short (s : string) :
  s <> "" -> String.length s <= 57 ->
  contains newline (strip (base64.encodestring s)) = false.
Proof.
  intros Hne Hlen. rewrite strip_encodestring_short by done.
  apply (contains_all_chars printable); [apply b64_printable | done].
Qed.

(** *** The encoder against RFC 4648 *)

Lemma b64_char_digit (n : N) :
  (n < 64)%N -> base64.b64_char n = Spec.base64_digit n.
Proof.
  intros Hn. assert (Hk : exists k, k < 64 /\ n = N.of_nat k).
  { exists (N.to_nat n). split; lia. }
  destruct Hk as (k & Hk & ->).
  do 64 (destruct k as [|k]; [reflexivity|]). lia.
Qed.

Lemma N_of_ascii_bound (a : ascii) : (N_of_ascii a < 256)%N.
Proof. destruct a as [[] [] [] [] [] [] [] []]; reflexivity. Qed.

Lemma digits_1 (x : N) : (x < 256)%N ->
  (x / 4 < 64 /\ (x mod 4) * 16 < 64
   /\ x / 4 = (65536 * x) / 262144
   /\ (x mod 4) * 16 = ((65536 * x) / 4096) mod 64)%N.
Proof. intros Hx. repeat split; ndiv. Qed.

Lemma digits_2 (x y : N) : (x < 256)%N -> (y < 256)%N ->
  (x / 4 < 64 /\ (x mod 4) * 16 + y / 16 < 64 /\ (y mod 16) * 4 < 64
   /\ x / 4 = (65536 * x + 256 * y) / 262144
   /\ (x mod 4) * 16 + y / 16 = ((65536 * x + 256 * y) / 4096) mod 64
   /\ (y mod 16) * 4 = ((65536 * x + 256 * y) / 64) mod 64)%N.
Proof. intros Hx Hy. repeat split; ndiv. Qed.

Lemma digits_3 (x y z : N) : (x < 256)%N -> (y < 256)%N -> (z < 256)%N ->
  (x / 4 < 64 /\ (x mod 4) * 16 + y / 16 < 64
   /\ (y mod 16) * 4 + z / 64 < 64 /\ z mod 64 < 64
   /\ x / 4 = (65536 * x + 256 * y + z) / 262144
   /\ (x mod 4) * 16 + y / 16 = ((65536 * x + 256 * y + z) / 4096) mod 64
   /\ (y mod 16) * 4 + z / 64 = ((65536 * x + 256 * y + z) / 64) mod 64
   /\ z mod 64 = (65536 * x + 256 * y + z) mod 64)%N.
Proof. intros Hx Hy Hz. repeat split; ndiv. Qed.

Lemma b64_base64_text (s : string) :
  base64.b64 s = Spec.base64_text s
  /\ (forall a, base64.b64 (String a s) = Spec.base64_text (String a s))
  /\ (forall a b, base64.b64 (String a (String b s))
                  = Spec.base64_text (String a (String b s))).
Proof.
  induction s as [|c s (IH0 & IH1 & IH2)].
  - split; [done|]. split.
    + intros a.
      destruct (digits_1 _ (N_of_ascii_bound a)) as (B1 & B2 & E1 & E2).
      cbn [base64.b64 Spec.base64_text]. cbv zeta.
      rewrite <- E1, <- E2. by rewrite !b64_char_digit.
    + intros a b.
      destruct (digits_2 _ _ (N_of_ascii_bound a) (N_of_ascii_bound b))
        as (B1 & B2 & B3 & E1 & E2 & E3).
      cbn [base64.b64 Spec.base64_text]. cbv zeta.
      rewrite <- E1, <- E2, <- E3. by rewrite !b64_char_digit.
  - split; [apply IH1|]. split; [intros a; apply IH2|].
    intros a b.
    destruct (digits_3 _ _ _ (N_of_ascii_bound a) (N_of_ascii_bound b)
                (N_of_ascii_bound c))
      as (B1 & B2 & B3 & B4 & E1 & E2 & E3 & E4).
    cbn [base64.b64 Spec.base64_text]. cbv zeta.
    rewrite <- E1, <- E2, <- E3, <- E4, IH0. by rewrite !b64_char_digit.
Qed.

(** Whole groups of three bytes are encoded on their own. *)
Lemma b64_app (k : nat) (a b : string) :
  String.length a = 3 * k ->
  base64.b64 (a +:+ b) = base64.b64 a +:+ base64.b64 b.
Proof.
  revert a. induction k as [|k IH]; intros a Ha.
  - destruct a; [done | simpl in Ha; lia].
  - destruct a as [|x [|y [|z a]]]; simpl in Ha; try lia.
    change (String x (String y (String z a)) +:+ b)
      with (String x (String y (String z (a +:+ b)))).
    cbn [base64.b64]. cbv zeta. rewrite IH by lia. reflexivity.
Qed.

Lemma b64_length (k : nat) (s : string) :
  (String.length s = 3 * k -> String.length (base64.b64 s) = 4 * k)
  /\ (String.length s <= 3 * k -> String.length (base64.b64 s) <= 4 * k).
Proof.
  revert s. induction k as [|k IH]; intros s.
  - split; intros H; (destruct s; [simpl; lia | simpl in H; lia]).
  - destruct s as [|x [|y [|z s]]]; cbn [String.length base64.b64]; cbv zeta;
      cbn [String.length]; try (split; intros; lia).
    destruct (IH s) as [IH1 IH2]. split; intros H.
    + rewrite IH1; lia.
    + specialize (IH2 ltac:(lia)). lia.
Qed.

Lemma wrap_from_short (width room : nat) (s : string) :
  String.length s <= room -> Spec.wrap_from width room s = s.
Proof.
  revert room. induction s as [|c s IH]; intros room H; simpl; [done|].
  destruct room as [|room]; [simpl in H; lia|].
  rewrite IH; [done | simpl in H; lia].
Qed.

Lemma wrap_from_app (width room : nat) (x y : string) :
  String.length x = room ->
  Spec.wrap_from width room (x +:+ y) = x +:+ Spec.wrap_from width 0 y.
Proof.
  revert room. induction x as [|c x IH]; intros room H; simpl in *.
  - by subst room.
  - destruct room as [|room]; [lia|]. rewrite IH; [done | lia].
Qed.

(** A full line and more text: the line, a line feed, the rest wrapped. *)
Lemma wrap_line (width : nat) (x y : string) :
  String.length x = S width -> y <> "" ->
  Spec.wrap (S width) (x +:+ y)
  = x +:+ String newline (Spec.wrap (S width) y).
Proof.
  intros Hx Hy. unfold Spec.wrap. rewrite wrap_from_app by done.
  destruct y as [|c y]; [done|]. simpl. by rewrite Nat.sub_0_r.
Qed.

Lemma take_drop (n : nat) (s : string) : take n s +:+ drop n s = s.
Proof.
  revert s. induction n as [|n IH]; intros [|c s]; simpl; try done.
  by rewrite IH.
Qed.

Lemma length_take (n : nat) (s : string) :
  n <= String.length s -> String.length (take n s) = n.
Proof.
  revert s. induction n as [|n IH]; intros [|c s]; simpl; try done; try lia.
  intros H. rewrite IH; lia.
Qed.

(** The lines of [encodestring] are the base64 text of the whole input,
    cut after every 76 characters. *)
Lemma encode_pieces_wrap (fuel : nat) (s : string) :
  s <> "" -> String.length s <= fuel ->
  base64.encode_pieces fuel s
  = Spec.wrap 76 (base64.b64 s) +:+ String newline "".
Proof.
  revert s. induction fuel as [|fuel IH]; intros s Hne Hlen.
  { destruct s; [done | simpl in Hlen; lia]. }
  cbn [base64.encode_pieces]. destruct s as [|c s]; [done|].
  set (s0 := String c s) in *. unfold base64.b2a_base64.
  change base64.MAXBINSIZE with 57.
  destruct (le_lt_dec (String.length s0) 57) as [Hshort|Hlong].
  - rewrite take_short, drop_short, encode_pieces_empty by done.
    rewrite str_app_nil_r. unfold Spec.wrap. rewrite wrap_from_short; [done|].
    apply (b64_length 19 s0). lia.
  - assert (Hrest : drop 57 s0 <> "").
    { intros Heq. pose proof (length_drop 57 s0) as Hl. rewrite Heq in Hl.
      change (String.length "") with 0 in Hl. lia. }
    rewrite IH; [|done|].
    2:{ rewrite length_drop. subst s0. cbn [String.length] in *. lia. }
    rewrite <- (take_drop 57 s0) at 3.
    rewrite (b64_app 19) by (apply length_take; lia).
    rewrite wrap_line.
    + rewrite !str_app_assoc. reflexivity.
    + apply (b64_length 19). apply length_take. lia.
    + by apply b64_nonempty.
Qed.

Lemma str_app_inv_tail (a b c : string) : a +:+ c = b +:+ c -> a = b.
Proof.
  intros H.
  assert (Hl : String.length a = String.length b).
  { apply (f_equal String.length) in H. rewrite !str_length_app in H. lia. }
  revert b H Hl. induction a as [|x a IH]; intros [|y b] H Hl; simpl in *;
    try done; try lia.
  injection H as -> H. f_equal. apply IH; [done | lia].
Qed.

Lemma strip_encodestring_wrap (s : string) :
  s <> "" ->
  strip (base64.encodestring s) = Spec.wrap 76 (Spec.base64_text s).
Proof.
  intros Hne. destruct (strip_encodestring s Hne) as [Henc _].
  unfold base64.encodestring in Henc at 1.
  rewrite encode_pieces_wrap in Henc by (done || lia).
  apply str_app_inv_tail in Henc. rewrite <- Henc.
  by rewrite (proj1 (b64_base64_text s)).
Qed.

End Base64.

(** ** AtomService.UseBasicAuth *)

Section BasicAuth.
Import Py World service.

(** C8 (not met by the code): the [Authorization] value is meant to be
    [Basic ] followed by the base64 text of [username:password], whatever
    the username and the password. [UseBasicAuth] stores, over any earlier
    value and without touching the network, [Basic ] followed by that text
    cut into lines of 76 characters: [strip] takes away the line feed at
    the end of the encoder's output and leaves those between its lines.
    For credentials of at most 57 bytes the value is as meant; for longer
    ones it holds a line feed, which base64 text never does. *)
Theorem UseBasicAuth_sets_Authorization (self : AtomService)
    (username password : string) (w : world) (d : gmap string value)
    (Hd : heap w !! self.(additional_headers) = Some d) :
  let credentials := username +:+ ":" +:+ password in
  let text := Spec.base64_text credentials in
  let stored := Spec.wrap 76 text in
  UseBasicAuth self username password w
  = (Ok tt,
     {| heap := <[self.(additional_headers) :=
                    <["Authorization" := VStr ("Basic " +:+ stored)]> d]>
                  (heap w);
        wire := wire w |})
  /\ Spec.trimmed stored
  /\ contains newline text = false
  /\ (String.length credentials <= 57 -> stored = text)
  /\ (57 < String.length credentials ->
      contains newline stored = true /\ stored <> text)
  /\ Spec.base64_text "user:pass" = "dXNlcjpwYXNz".
Proof.
  cbv zeta. set (credentials := username +:+ ":" +:+ password).
  assert (Hne : credentials <> "") by (subst credentials; by destruct username).
  pose proof (strip_encodestring_wrap credentials Hne) as Hwrap.
  assert (Htext : contains newline (Spec.base64_text credentials) = false).
  { rewrite <- (proj1 (b64_base64_text credentials)).
    apply (contains_all_chars printable); [apply b64_printable | done]. }
  split; [|split; [|split; [done|split; [|split; [|reflexivity]]]]].
  - unfold UseBasicAuth. rewrite (dict_setitem_run _ _ _ _ _ Hd).
    fold credentials. by rewrite Hwrap.
  - rewrite <- Hwrap. by apply strip_encodestring.
  - intros Hlen. apply wrap_from_short.
    rewrite <- (proj1 (b64_base64_text credentials)).
    apply (b64_length 19 credentials). lia.
  - intros Hlen.
    assert (Hnl : contains newline (Spec.wrap 76 (Spec.base64_text credentials))
                  = true).
    { rewrite <- Hwrap. by apply encodestring_long. }
    split; [exact Hnl|]. intros Heq. rewrite Heq in Hnl. congruence.
Qed.

End BasicAuth.

(** * The theorems at concrete inputs *)

Section Witnesses.
Import Py World service.

Lemma BuildUri_separator_witness :
  ({[ "max-results" := "250" ]} : gmap string string) <> ∅
  /\ BuildUri "/feeds/items?x=1" (Some {[ "max-results" := "250" ]}) false
     = "/feeds/items?x=1" +:+ "&"
         +:+ join "&" (DictionaryToParamList
                         (Some {[ "max-results" := "250" ]}) false).
Proof.
  assert (H : ({[ "max-results" := "250" ]} : gmap string string) <> ∅)
    by apply insert_non_empty.
  split; [exact H|].
  exact (proj1 (BuildUri_separator "/feeds/items?x=1"
                  {[ "max-results" := "250" ]} false H)).
Defined.

Lemma DictionaryToParamList_escape_witness :
  ({[ "a&b" := "c/d e" ]} : gmap string string) !! "a&b" = Some "c/d e"
  /\ "a%26b=c%2Fd+e"
       ∈ DictionaryToParamList (Some {[ "a&b" := "c/d e" ]}) true
  /\ "a&b=c/d e"
       ∈ DictionaryToParamList (Some {[ "a&b" := "c/d e" ]}) false.
Proof.
  assert (H : ({[ "a&b" := "c/d e" ]} : gmap string string) !! "a&b"
              = Some "c/d e") by reflexivity.
  split; [exact H|].
  pose proof (DictionaryToParamList_escape {[ "a&b" := "c/d e" ]}
                "a&b" "c/d e" H) as (H1 & H2 & _).
  split; [exact H1 | exact H2].
Defined.

Lemma ProcessUrl_https_witness :
  Spec.well_formed "www.google.com" (Some "8443") (Some "base/feeds/items")
    = true
  /\ _ProcessUrl Fixture.client "https://www.google.com:8443/base/feeds/items"
     = Ok (Some "www.google.com", 8443%Z, true, "/base/feeds/items").
Proof.
  split; [reflexivity|].
  apply (ProcessUrl_https Fixture.client "www.google.com" (Some "8443")
           (Some "base/feeds/items")).
  reflexivity.
Defined.

Lemma ProcessUrl_http_port_witness :
  Spec.well_formed "localhost" (Some "8080") (Some "feeds?q=1") = true
  /\ _ProcessUrl Fixture.client "http://localhost:8080/feeds?q=1"
     = Ok (Some "localhost", 8080%Z, false, "/feeds?q=1").
Proof.
  split; [reflexivity|].
  apply (ProcessUrl_http_port Fixture.client "localhost" "8080" "feeds?q=1").
  reflexivity.
Defined.

Lemma ProcessUrl_no_match_witness :
  (String.prefix "http://" "/feeds/snippets?bq=camera" = false
   /\ String.prefix "https://" "/feeds/snippets?bq=camera" = false)
  /\ _ProcessUrl Fixture.client "/feeds/snippets?bq=camera"
     = Ok (Some "example.com", 80%Z, false, "/feeds/snippets?bq=camera").
Proof.
  split; [split; reflexivity|].
  apply (ProcessUrl_no_match Fixture.client "/feeds/snippets?bq=camera").
  right. split; reflexivity.
Defined.

Lemma UseBasicAuth_sets_Authorization_witness :
  let credentials :=
    Fixture.long_username +:+ ":" +:+ Fixture.short_password in
  let line :=
    "Zmlyc3RuYW1lLmxhc3RuYW1lQGRlcGFydG1lbnQub3JnYW5pc2F0aW9uLmV4YW1wbGU6czNjcmV0"
  in
  heap Fixture.world0 !! 0%nat
    = Some {[ "User-Agent" := VStr "Python Google Data Client Lib" ]}
  /\ String.length credentials = 58
  /\ Spec.base64_text credentials = line +:+ "IQ=="
  /\ heap (UseBasicAuth Fixture.client Fixture.long_username
             Fixture.short_password Fixture.world0).2 !! 0%nat
     = Some {[ "User-Agent" := VStr "Python Google Data Client Lib";
               "Authorization" :=
                 VStr ("Basic " +:+ line +:+ String newline "IQ==") ]}
  /\ "Basic " +:+ line +:+ String newline "IQ=="
     <> "Basic " +:+ Spec.base64_text credentials.
Proof.
  intros credentials line.
  assert (H : heap Fixture.world0 !! Fixture.client.(additional_headers)
              = Some {[ "User-Agent" := VStr "Python Google Data Client Lib" ]})
    by reflexivity.
  destruct (UseBasicAuth_sets_Authorization Fixture.client
              Fixture.long_username Fixture.short_password Fixture.world0 _ H)
    as (Hrun & _ & _ & _ & Hlong & _).
  split; [exact H|]. split; [reflexivity|]. split; [reflexivity|]. split.
  - rewrite Hrun. reflexivity.
  - discriminate.
Defined.


Lemma caller_dicts_mutated_witness :
  heap Fixture.world0 !! 1%nat = Some {[ "Content-Type" := VStr "text/plain" ]}
  /\ (__init__ (Some "example.com") (Some 1%nat) Fixture.world0).1
     = Ok {| server := Some "example.com"; port := 80; ssl := false;
             additional_headers := 1%nat |}
  /\ heap (@Put Fixture.text_elements Fixture.offline Fixture.client
             (DStr "<entry/>") "/base/feeds/items/1" (Some 1%nat) None true
             default_content_type Fixture.world0).2 !! 1%nat
     = Some (Spec.with_content_headers "<entry/>" "application/atom+xml"
               {[ "Content-Type" := VStr "text/plain" ]}).
Proof.
  assert (Hd : heap Fixture.world0 !! 1%nat
               = Some {[ "Content-Type" := VStr "text/plain" ]})
    by reflexivity.
  split; [exact Hd|].
  destruct (@caller_dicts_mutated Fixture.text_elements Fixture.offline
              Fixture.client (Some "example.com") (DStr "<entry/>")
              "/base/feeds/items/1" 1%nat None true default_content_type
              Fixture.world0 _ Hd) as (Hinit & _ & Hverbs).
  split.
  - rewrite Hinit; [reflexivity|]. apply insert_non_empty.
  - destruct (Hverbs "<entry/>" eq_refl) as [_ Hput].
    rewrite Hput. apply lookup_insert_eq.
Defined.

End Witnesses.

(** * Further properties *)

(** ** Every match, and what follows it *)

Section UrlParts.
Import Py service.

Local Abbreviation path_pattern :=
  (re.Opt (re.Group 5 (re.Seq (re.Lit "/") (re.Star re.is_dot)))).
Local Abbreviation port_pattern :=
  (re.Opt (re.Group 3
             (re.Seq (re.Lit ":") (re.Group 4 (re.Plus re.is_digit))))).
Local Abbreviation URL_tail :=
  (re.Seq (re.text "://")
     (re.Seq (re.Group 2 (re.Star host_class))
        (re.Seq port_pattern path_pattern))).
Local Abbreviation finish := (fun (_ : string) (g : gmap nat string) => Some g).
Local Abbreviation port_text port :=
  (match port with Some d => ":" +:+ d | None => "" end).
Local Abbreviation path_text path :=
  (match path with Some r => "/" +:+ r | None => "" end).
Local Abbreviation port_groups port g :=
  (match port with
   | Some d => <[3%nat := ":" +:+ d]> (<[4%nat := d]> g)
   | None => g
   end).
Local Abbreviation path_groups path g :=
  (match path with Some r => <[5%nat := "/" +:+ r]> g | None => g end).
Local Abbreviation scheme_groups https :=
  (if https then ({[ 1%nat := "s" ]} : gmap nat string) else ∅).

(** The groups of a URL with these parts. *)
Local Abbreviation url_groups https host port path :=
  (path_groups path (port_groups port (<[2%nat := host]> (scheme_groups https)))).

Lemma path_parts (s : string) (g m : gmap nat string) :
  re.exec path_pattern s g finish = Some m ->
  exists path junk,
    s = path_text path +:+ junk
    /\ (forall r, path = Some r -> Spec.is_path_tail r = true)
    /\ m = path_groups path g.
Proof.
  intros [H|H]%exec_opt_inv.
  - rewrite exec_group, exec_seq in H.
    apply exec_lit_inv in H as (s1 & -> & H).
    apply exec_star_inv in H as (r & s2 & -> & Hr & [= <-]).
    exists (Some r), s2. rewrite consumed_cons.
    split; [by rewrite str_app_assoc|]. split; [by intros ? [= <-]|done].
  - injection H as <-. by exists None, s.
Qed.

Lemma port_parts (s : string) (g m : gmap nat string) :
  re.exec port_pattern s g (fun s' g' => re.exec path_pattern s' g' finish)
    = Some m ->
  exists port path junk,
    s = port_text port +:+ path_text path +:+ junk
    /\ (forall d, port = Some d -> Spec.is_port d = true)
    /\ (forall r, path = Some r -> Spec.is_path_tail r = true)
    /\ m = path_groups path (port_groups port g).
Proof.
  intros [H|H]%exec_opt_inv.
  - rewrite exec_group, exec_seq in H.
    apply exec_lit_inv in H as (s1 & -> & H). rewrite exec_group in H.
    apply exec_plus_inv in H as (d & s2 & -> & Hne & Hd & H).
    rewrite consumed_app, consumed_cons in H.
    apply path_parts in H as (path & junk & -> & Hpath & ->).
    exists (Some d), path, junk. rewrite !str_app_assoc.
    split; [done|]. split; [|done].
    intros ? [= <-]. by destruct d.
  - apply path_parts in H as (path & junk & -> & Hpath & ->).
    by exists None, path, junk.
Qed.

Lemma tail_parts (s : string) (g m : gmap nat string) :
  re.exec URL_tail s g finish = Some m ->
  exists host port path junk,
    s = "://" +:+ host +:+ port_text port +:+ path_text path +:+ junk
    /\ Spec.well_formed host port path = true
    /\ m = path_groups path (port_groups port (<[2%nat := host]> g)).
Proof.
  rewrite exec_seq. intros (s1 & -> & H)%exec_text_inv.
  rewrite exec_seq, exec_group in H.
  apply exec_star_inv in H as (host & s2 & -> & Hh & H).
  rewrite exec_seq, consumed_app in H.
  apply port_parts in H as (port & path & junk & -> & Hport & Hpath & ->).
  exists host, port, path, junk. split; [done|]. split; [|done].
  unfold Spec.well_formed. rewrite !andb_true_iff. split; [split|].
  - done.
  - destruct port; [by apply Hport | done].
  - destruct path; [by apply Hpath | done].
Qed.

(** Every match is the match of a well-formed URL followed by text the
    pattern does not look at. *)
Lemma URL_REGEX_match_parts_inv (url : string) (m : gmap nat string) :
  re.match_ URL_REGEX url = Some m ->
  exists https host port path junk,
    url = Spec.absolute_url https host port path +:+ junk
    /\ Spec.well_formed host port path = true
    /\ m = url_groups https host port path.
Proof.
  unfold re.match_, URL_REGEX. rewrite exec_seq.
  intros (s1 & -> & H)%exec_text_inv. rewrite exec_seq in H.
  apply exec_opt_inv in H as [H|H].
  - rewrite exec_group in H. apply exec_lit_inv in H as (s2 & -> & H).
    rewrite consumed_one in H.
    apply tail_parts in H as (host & port & path & junk & -> & Hwf & ->).
    exists true, host, port, path, junk. split; [|done].
    unfold Spec.absolute_url. by rewrite !str_app_assoc.
  - apply tail_parts in H as (host & port & path & junk & -> & Hwf & ->).
    exists false, host, port, path, junk. split; [|done].
    unfold Spec.absolute_url. by rewrite !str_app_assoc.
Qed.

(** What [_ProcessUrl] makes of the groups of a URL. *)
Lemma ProcessUrl_groups (self : AtomService) (url : string) (https : bool)
    (host : string) (port path : option string) :
  Spec.well_formed host port path = true ->
  re.match_ URL_REGEX url = Some (url_groups https host port path) ->
  _ProcessUrl self url
  = Ok (Some host,
        match port with
        | Some d => Spec.decimal d
        | None => if https then 443%Z else self.(service.port)
        end,
        if https then true else self.(ssl),
        match path with Some r => "/" +:+ r | None => "/" end).
Proof.
  unfold Spec.well_formed.
  intros [[Hh Hd]%andb_true_iff Hr]%andb_true_iff Hm.
  unfold _ProcessUrl. rewrite Hm. unfold re.group.
  destruct https, port as [d|], path as [r|];
    repeat first
      [ rewrite lookup_insert_eq
      | rewrite lookup_insert_ne by done
      | rewrite lookup_singleton_eq
      | rewrite lookup_singleton_ne by done
      | rewrite lookup_empty ];
    rewrite ?(int_port d Hd); reflexivity.
Qed.


Lemma path_match_tail (path : option string) (junk : string)
    (g : gmap nat string) :
  (forall r, path = Some r -> Spec.is_path_tail r = true) ->
  match path with
  | Some _ => re.stops re.is_dot junk
  | None => re.stops (Ascii.eqb "/") junk
  end = true ->
  re.exec path_pattern (path_text path +:+ junk) g finish
  = Some (path_groups path g).
Proof.
  intros Hr Hjunk. destruct path as [r|].
  - apply exec_opt_take. rewrite exec_group, exec_seq.
    rewrite str_app_assoc. simpl String.append. rewrite exec_lit.
    apply exec_star; [by apply Hr | done |]. by rewrite consumed_cons.
  - rewrite exec_opt_skip; [done|].
    rewrite exec_group, exec_seq. by apply exec_lit_fail.
Qed.

Lemma port_match_tail {A} (port : option string) (Q : string)
    (g : gmap nat string) (k : string -> gmap nat string -> option A)
    (r : A) :
  (forall d, port = Some d -> Spec.is_port d = true) ->
  match port with
  | Some _ => re.stops re.is_digit Q
  | None => re.stops (Ascii.eqb ":") Q
  end = true ->
  k Q (port_groups port g) = Some r ->
  re.exec port_pattern (port_text port +:+ Q) g k = Some r.
Proof.
  intros Hd HQ Hk. destruct port as [d|].
  - specialize (Hd d eq_refl). unfold Spec.is_port in Hd.
    apply exec_opt_take. rewrite exec_group, exec_seq.
    rewrite str_app_assoc. simpl String.append. rewrite exec_lit, exec_group.
    apply exec_plus; [by destruct d | by destruct d | done |].
    by rewrite consumed_app, consumed_cons.
  - rewrite exec_opt_skip; [done|].
    rewrite exec_group, exec_seq. by apply exec_lit_fail.
Qed.

(** The match object of a well-formed URL followed by text that cannot
    extend any of its parts. *)
Lemma URL_REGEX_match_tail (https : bool) (host : string)
    (port path : option string) (junk : string) :
  Spec.well_formed host port path = true ->
  Spec.dropped_tail port path junk = true ->
  re.match_ URL_REGEX (Spec.absolute_url https host port path +:+ junk)
  = Some (url_groups https host port path).
Proof.
  unfold Spec.well_formed.
  intros [[Hh Hd]%andb_true_iff Hr]%andb_true_iff Hjunk.
  unfold re.match_, URL_REGEX, Spec.absolute_url.
  rewrite !str_app_assoc. rewrite exec_seq, exec_text, exec_seq.
  set (Q := path_text path +:+ junk).
  assert (HQ : match port with
               | Some _ => re.stops re.is_digit Q
               | None => re.stops (Ascii.eqb ":") Q
               end = true
               /\ re.stops host_class (port_text port +:+ Q) = true
               /\ match path with
                  | Some _ => re.stops re.is_dot junk
                  | None => re.stops (Ascii.eqb "/") junk
                  end = true).
  { subst Q. unfold Spec.dropped_tail in Hjunk.
    destruct path as [r|], port as [d|]; simpl in *;
      repeat match goal with
             | H : _ && _ = true |- _ => apply andb_true_iff in H as [? ?]
             end; done. }
  destruct HQ as (HQ1 & HQ2 & HQ3).
  assert (Htail : forall g,
    re.exec URL_tail ("://" +:+ host +:+ port_text port +:+ Q) g finish
    = Some (path_groups path (port_groups port (<[2%nat := host]> g)))).
  { intros g. rewrite exec_seq, exec_text, exec_seq, exec_group.
    apply exec_star; [done..|]. rewrite exec_seq, consumed_app.
    apply port_match_tail; [by destruct port as [d|]; [intros ? [= <-]|] | done |].
    subst Q. apply path_match_tail; [|done].
    by destruct path as [r|]; [intros ? [= <-]|]. }
  destruct https.
  - apply exec_opt_take. rewrite exec_group. simpl String.append.
    rewrite exec_lit, consumed_one. apply Htail.
  - rewrite exec_opt_skip; [apply Htail|].
    rewrite exec_group. by apply exec_lit_fail.
Qed.

(** Text that does not start a port is not read as one. *)
Lemma port_skip {A} (Q : string) (g : gmap nat string)
    (k : string -> gmap nat string -> option A) :
  Spec.starts_port Q = false -> re.exec port_pattern Q g k = k Q g.
Proof.
  intros HQ. apply exec_opt_skip. rewrite exec_group, exec_seq.
  destruct Q as [|c Q]; [done|]. cbn [re.exec].
  destruct (Ascii.eqb_spec ":" c) as [<-|]; [|done].
  destruct Q as [|c' Q]; [done|]. simpl in HQ. by rewrite HQ.
Qed.

(** The match object of a well-formed URL followed by text the pattern
    leaves unread. *)
Lemma URL_REGEX_match_unread (https : bool) (host : string)
    (port path : option string) (junk : string) :
  Spec.well_formed host port path = true ->
  Spec.unread_tail port path junk = true ->
  re.match_ URL_REGEX (Spec.absolute_url https host port path +:+ junk)
  = Some (url_groups https host port path).
Proof.
  unfold Spec.well_formed.
  intros [[Hh Hd]%andb_true_iff Hr]%andb_true_iff Hjunk.
  unfold re.match_, URL_REGEX, Spec.absolute_url.
  rewrite !str_app_assoc. rewrite exec_seq, exec_text, exec_seq.
  set (Q := path_text path +:+ junk).
  assert (HQ : match port with
               | Some _ => re.stops re.is_digit Q
               | None => negb (Spec.starts_port Q)
               end = true
               /\ re.stops host_class (port_text port +:+ Q) = true
               /\ match path with
                  | Some _ => re.stops re.is_dot junk
                  | None => re.stops (Ascii.eqb "/") junk
                  end = true).
  { subst Q. unfold Spec.unread_tail in Hjunk.
    destruct path as [r|], port as [d|]; simpl in *;
      repeat match goal with
             | H : _ && _ = true |- _ => apply andb_true_iff in H as [? ?]
             end; try done.
    by destruct (r +:+ junk). }
  destruct HQ as (HQ1 & HQ2 & HQ3).
  assert (Hpath : forall g,
    re.exec path_pattern Q g finish = Some (path_groups path g)).
  { intros g. subst Q. apply path_match_tail; [|done].
    by destruct path as [r|]; [intros ? [= <-]|]. }
  assert (Htail : forall g,
    re.exec URL_tail ("://" +:+ host +:+ port_text port +:+ Q) g finish
    = Some (path_groups path (port_groups port (<[2%nat := host]> g)))).
  { intros g. rewrite exec_seq, exec_text, exec_seq, exec_group.
    apply exec_star; [done..|]. rewrite exec_seq, consumed_app.
    destruct port as [d|].
    - apply (port_match_tail (Some d));
        [by intros ? [= <-] | done | apply Hpath].
    - simpl String.append. rewrite port_skip by (by apply negb_true_iff).
      apply Hpath. }
  destruct https.
  - apply exec_opt_take. rewrite exec_group. simpl String.append.
    rewrite exec_lit, consumed_one. apply Htail.
  - rewrite exec_opt_skip; [apply Htail|].
    rewrite exec_group. by apply exec_lit_fail.
Qed.

(** The longest run over a class at the start of a string. *)
Lemma span_stops (cls : ascii -> bool) (s : string) :
  exists pre s',
    s = pre +:+ s' /\ all_chars cls pre = true /\ re.stops cls s' = true.
Proof.
  induction s as [|c s (pre & s' & -> & Hpre & Hs')].
  - by exists "", "".
  - destruct (cls c) eqn:Hc.
    + exists (String c pre), s'. simpl. by rewrite Hc, Hpre.
    + exists "", (String c (pre +:+ s')). simpl. by rewrite Hc.
Qed.

(** Every text reads as a host, a port if one starts there, a path if
    one starts there, and a rest the pattern leaves unread. *)
Lemma url_parts_exist (rest : string) :
  exists host port path junk,
    rest = host +:+ port_text port +:+ path_text path +:+ junk
    /\ Spec.well_formed host port path = true
    /\ Spec.unread_tail port path junk = true.
Proof.
  destruct (span_stops host_class rest) as (host & s1 & -> & Hhost & Hs1).
  assert (Hport : exists port s2,
    s1 = port_text port +:+ s2
    /\ match port with Some d => Spec.is_port d | None => true end = true
    /\ match port with
       | Some _ => re.stops re.is_digit s2
       | None => re.stops host_class s2 && negb (Spec.starts_port s2)
       end = true).
  { destruct (Spec.starts_port s1) eqn:Hsp.
    - destruct s1 as [|c [|c' s1]]; try done. simpl in Hsp.
      apply andb_true_iff in Hsp as [Hc Hc'].
      apply Ascii.eqb_eq in Hc as ->.
      destruct (span_stops re.is_digit s1) as (d & s2 & -> & Hd & Hs2).
      exists (Some (String c' d)), s2. split; [done|]. split; [|done].
      simpl. apply andb_true_iff. split; [exact Hc' | exact Hd].
    - exists None, s1. split; [done|]. split; [done|]. by rewrite Hs1, Hsp. }
  destruct Hport as (port & s2 & -> & Hport & Hs2).
  assert (Hpath : exists path junk,
    s2 = path_text path +:+ junk
    /\ match path with Some r => Spec.is_path_tail r | None => true end = true
    /\ match path with
       | Some _ => re.stops re.is_dot junk
       | None => re.stops (Ascii.eqb "/") junk
       end = true).
  { destruct s2 as [|c s2]; [by exists None, ""|].
    destruct (Ascii.eqb_spec "/" c) as [<-|Hc].
    - destruct (span_stops re.is_dot s2) as (r & junk & -> & Hr & Hjunk).
      exists (Some r), junk. split; [by rewrite str_app_assoc|].
      split; [exact Hr | exact Hjunk].
    - exists None, (String c s2). split; [done|]. split; [done|].
      cbn [re.stops]. by destruct (Ascii.eqb_spec "/" c). }
  destruct Hpath as (path & junk & -> & Hpath & Hjunk).
  exists host, port, path, junk. split; [done|].
  unfold Spec.well_formed, Spec.is_host. fold host_class.
  rewrite Hhost, Hport, Hpath. split; [done|].
  unfold Spec.unread_tail.
  destruct path as [r|], port as [d|]; simpl in *; try done.
  - by rewrite Hs2, Hjunk.
  - apply andb_true_iff in Hs2 as [-> ->]. by rewrite Hjunk.
Qed.

Lemma prefix_app (p s : string) : String.prefix p (p +:+ s) = true.
Proof.
  induction p as [|c p IH]; simpl; [by destruct s|].
  by destruct (ascii_dec c c).
Qed.

Lemma prefix_inv (p s : string) :
  String.prefix p s = true -> exists rest, s = p +:+ rest.
Proof.
  revert s. induction p as [|c p IH]; intros [|c' s]; simpl; try done.
  - by exists "".
  - by exists (String c' s).
  - destruct (ascii_dec c c') as [<-|]; [|done].
    intros (rest & ->)%IH. by exists rest.
Qed.

End UrlParts.

(** ** Requests from the connection on *)

Section RequestRuns.
Import Py World service.
Context {ET : ElementTree} {net : httplib}.

(** A request without body, from the connection on. *)
Lemma bodiless_run (self : AtomService) (uri op : string)
    (extra_headers : option nat) (url_params : option (gmap string string))
    (escape_params : bool) (w : world) (da : gmap string value) :
  heap w !! self.(additional_headers) = Some da ->
  (forall l, extra_headers = Some l -> is_Some (heap w !! l)) ->
  exists c,
    bind (_CreateConnection self uri op extra_headers url_params
            escape_params) getresponse w
    = ((Spec.bodiless_outcome (wire w) c).1,
       {| heap := heap w;
          wire := wire w ++ (Spec.bodiless_outcome (wire w) c).2 |})
    /\ conn_method c = op
    /\ conn_headers c
       = Spec.request_headers da (extra_headers ≫= (heap w !!.))
    /\ _ProcessUrl self (BuildUri uri url_params escape_params)
       = Ok (conn_host c, conn_port c, conn_ssl c, conn_selector c).
Proof.
  intros Hda Hextra.
  destruct (CreateConnection_run self uri op extra_headers url_params
              escape_params w da Hda Hextra) as (c & Hrun & Hm & Hh & Hurl).
  exists c. split; [|split; [done|split; [|done]]].
  - rewrite bind_run, Hrun. unfold Spec.bodiless_outcome.
    destruct (net_endheaders (wire w) c); simpl; [|done].
    unfold getresponse. simpl. by rewrite <- app_assoc.
  - rewrite Hh. unfold Spec.request_headers.
    destruct extra_headers as [l|]; simpl; [|done].
    by destruct (Hextra l eq_refl) as [d ->].
Qed.

Lemma bodied_run (self : AtomService) (uri op data_str : string)
    (extra_headers : option nat) (url_params : option (gmap string string))
    (escape_params : bool) (w : world) (da : gmap string value) :
  heap w !! self.(additional_headers) = Some da ->
  (forall l, extra_headers = Some l -> is_Some (heap w !! l)) ->
  exists c,
    bind (_CreateConnection self uri op extra_headers url_params
            escape_params)
      (fun c => bind (send c data_str) (fun _ => getresponse c)) w
    = ((Spec.bodied_outcome (wire w) c data_str).1,
       {| heap := heap w;
          wire := wire w ++ (Spec.bodied_outcome (wire w) c data_str).2 |})
    /\ conn_method c = op
    /\ conn_headers c
       = Spec.request_headers da (extra_headers ≫= (heap w !!.))
    /\ _ProcessUrl self (BuildUri uri url_params escape_params)
       = Ok (conn_host c, conn_port c, conn_ssl c, conn_selector c).
Proof.
  intros Hda Hextra.
  destruct (CreateConnection_run self uri op extra_headers url_params
              escape_params w da Hda Hextra) as (c & Hrun & Hm & Hh & Hurl).
  exists c. split; [|split; [done|split; [|done]]].
  - rewrite bind_run, Hrun. unfold Spec.bodied_outcome.
    destruct (net_endheaders (wire w) c); simpl; [|done].
    unfold bind, send, getresponse. simpl.
    destruct (net_send _ c data_str); simpl.
    + by rewrite <- !app_assoc.
    + by rewrite <- !app_assoc.
  - rewrite Hh. unfold Spec.request_headers.
    destruct extra_headers as [l|]; simpl; [|done].
    by destruct (Hextra l eq_refl) as [d ->].
Qed.

Lemma bodiless_first_event (log : list event) (c : connection) :
  exists rest, (Spec.bodiless_outcome log c).2 = EndHeaders c :: rest.
Proof.
  unfold Spec.bodiless_outcome. destruct (net_endheaders log c); eauto.
Qed.

Lemma bodied_first_event (log : list event) (c : connection)
    (data_str : string) :
  exists rest, (Spec.bodied_outcome log c data_str).2 = EndHeaders c :: rest.
Proof.
  unfold Spec.bodied_outcome. destruct (net_endheaders log c); eauto.
  destruct (net_send _ c data_str); eauto.
Qed.

(** [_CreateConnection] stops before the network only for want of a
    dict. *)
Lemma CreateConnection_cases (self : AtomService) (uri op : string)
    (extra_headers : option nat) (url_params : option (gmap string string))
    (escape_params : bool) (w : world) :
  (exists e,
     _CreateConnection self uri op extra_headers url_params escape_params w
     = (Raise e, w))
  \/ (exists da,
        heap w !! self.(additional_headers) = Some da
        /\ forall l, extra_headers = Some l -> is_Some (heap w !! l)).
Proof.
  destruct (ProcessUrl_total self (BuildUri uri url_params escape_params))
    as (sv & pt & sl & u & Hurl).
  destruct (heap w !! self.(additional_headers)) as [da|] eqn:Hda.
  - destruct extra_headers as [l|].
    + destruct (heap w !! l) as [d|] eqn:Hd.
      * right. exists da. split; [done|]. intros l' [= <-]. by exists d.
      * left. exists ReferenceError.
        unfold _CreateConnection, bind, lift, ret, dict_read.
        by rewrite Hurl, Hda, Hd.
    + right. by exists da.
  - left. exists ReferenceError.
    unfold _CreateConnection, bind, lift, ret, dict_read.
    by rewrite Hurl, Hda.
Qed.

Lemma world_eta (w : world) :
  w = {| heap := heap w; wire := wire w ++ [] |}.
Proof. destruct w. simpl. by rewrite app_nil_r. Qed.

Lemma request_headers_carry (da : gmap string value)
    (extra : option (gmap string value)) (c : connection) :
  conn_headers c = Spec.request_headers da extra ->
  Spec.carries_dict (Some da) c /\ Spec.carries_dict extra c.
Proof.
  intros Hh. unfold Spec.carries_dict. rewrite Hh. unfold Spec.request_headers.
  split; intros k v Hkv; apply elem_of_app.
  - left. by apply elem_of_map_to_list.
  - right. destruct extra as [d|]; [|done]. by apply elem_of_map_to_list.
Qed.

(** A request without body: it fails before the network, or one header
    block is composed and the network decides the rest. *)
Lemma bodiless_cases (self : AtomService) (uri op : string)
    (extra_headers : option nat) (url_params : option (gmap string string))
    (escape_params : bool) (w : world) :
  let out := bind (_CreateConnection self uri op extra_headers url_params
                     escape_params) getresponse w in
  exists evs,
    out.2 = {| heap := heap w; wire := wire w ++ evs |}
    /\ ((evs = [] /\ exists e, out.1 = Raise e)
        \/ exists c,
             Spec.addressed self uri url_params escape_params op c
             /\ Spec.carries_dict (heap w !! self.(additional_headers)) c
             /\ Spec.carries_dict (extra_headers ≫= (heap w !!.)) c
             /\ (out.1, evs) = Spec.bodiless_outcome (wire w) c).
Proof.
  intros out. subst out.
  destruct (CreateConnection_cases self uri op extra_headers url_params
              escape_params w) as [[e He]|(da & Hda & Hextra)].
  - exists []. rewrite bind_run, He. split; [apply world_eta|].
    left. split; [done|]. by exists e.
  - destruct (bodiless_run self uri op extra_headers url_params
                escape_params w da Hda Hextra) as (c & -> & Hm & Hh & Hu).
    exists (Spec.bodiless_outcome (wire w) c).2. split; [done|]. right.
    exists c. apply request_headers_carry in Hh as [Hh1 Hh2].
    split; [split; [done | by eexists]|]. rewrite Hda.
    split; [done|]. split; [done|]. by destruct (Spec.bodiless_outcome _ _).
Qed.

(** The same with a body. *)
Lemma bodied_cases (self : AtomService) (uri op data_str : string)
    (extra_headers : option nat) (url_params : option (gmap string string))
    (escape_params : bool) (w : world) :
  let out := bind (_CreateConnection self uri op extra_headers url_params
                     escape_params)
               (fun c => bind (send c data_str) (fun _ => getresponse c)) w in
  exists evs,
    out.2 = {| heap := heap w; wire := wire w ++ evs |}
    /\ ((evs = [] /\ exists e, out.1 = Raise e)
        \/ exists c,
             Spec.addressed self uri url_params escape_params op c
             /\ Spec.carries_dict (heap w !! self.(additional_headers)) c
             /\ Spec.carries_dict (extra_headers ≫= (heap w !!.)) c
             /\ (out.1, evs) = Spec.bodied_outcome (wire w) c data_str).
Proof.
  intros out. subst out.
  destruct (CreateConnection_cases self uri op extra_headers url_params
              escape_params w) as [[e He]|(da & Hda & Hextra)].
  - exists []. rewrite bind_run, He. split; [apply world_eta|].
    left. split; [done|]. by exists e.
  - destruct (bodied_run self uri op data_str extra_headers url_params
                escape_params w da Hda Hextra) as (c & -> & Hm & Hh & Hu).
    exists (Spec.bodied_outcome (wire w) c data_str).2. split; [done|]. right.
    exists c. apply request_headers_carry in Hh as [Hh1 Hh2].
    split; [split; [done | by eexists]|]. rewrite Hda.
    split; [done|]. split; [done|]. by destruct (Spec.bodied_outcome _ _ _).
Qed.

(** The two item assignments of [Post] and [Put]. *)
Lemma set_content_headers_cases (extra_headers : option nat)
    (data_str content_type : string) (w : world) :
  let out := bind (setitem extra_headers "Content-Length"
                     (VInt (Z.of_nat (String.length data_str))))
               (fun _ => setitem extra_headers "Content-Type"
                           (VStr content_type)) w in
  (exists e, out = (Raise e, w))
  \/ (exists l d,
        extra_headers = Some l /\ heap w !! l = Some d
        /\ out = (Ok tt,
                  {| heap := <[l := Spec.with_content_headers data_str
                                      content_type d]> (heap w);
                     wire := wire w |})).
Proof.
  intros out. subst out. destruct extra_headers as [l|].
  - destruct (heap w !! l) as [d|] eqn:Hd.
    + right. exists l, d. split; [done|]. split; [done|].
      by apply set_content_headers.
    + left. exists ReferenceError.
      rewrite bind_run. unfold setitem, dict_setitem. by rewrite Hd.
  - left. by exists TypeError.
Qed.

(** A request with a body, from the serialization on: it fails before the
    network, or the dict has been written and one header block with its
    lines is composed. *)
Lemma bodied_verb_cases (self : AtomService) (data : data)
    (uri op : string) (extra_headers : option nat)
    (url_params : option (gmap string string)) (escape_params : bool)
    (content_type : string) (w : world) :
  let out :=
    match serialize data with
    | Ok data_str =>
        match bind (setitem extra_headers "Content-Length"
                      (VInt (Z.of_nat (String.length data_str))))
                (fun _ => setitem extra_headers "Content-Type"
                            (VStr content_type)) w with
        | (Ok _, w') =>
            bind (_CreateConnection self uri op extra_headers url_params
                    escape_params)
              (fun c => bind (send c data_str) (fun _ => getresponse c)) w'
        | (Raise e, w') => (Raise e, w')
        end
    | Raise e => (Raise e, w)
    end in
  exists evs,
    wire out.2 = (wire w ++ evs)%list
    /\ ((evs = [] /\ exists e, out.1 = Raise e)
        \/ exists c data_str l d,
             serialize data = Ok data_str
             /\ extra_headers = Some l /\ heap w !! l = Some d
             /\ Spec.addressed self uri url_params escape_params op c
             /\ Spec.carries_dict
                  (<[l := Spec.with_content_headers data_str content_type d]>
                     (heap w) !! self.(additional_headers)) c
             /\ Spec.carries_dict
                  (Some (Spec.with_content_headers data_str content_type d)) c
             /\ (out.1, evs) = Spec.bodied_outcome (wire w) c data_str).
Proof.
  intros out. subst out.
  destruct (serialize data) as [data_str|e].
  2:{ exists []. rewrite app_nil_r. split; [done|]. left. eauto. }
  destruct (set_content_headers_cases extra_headers data_str content_type w)
    as [[e ->]|(l & d & -> & Hd & ->)].
  { exists []. rewrite app_nil_r. split; [done|]. left. eauto. }
  set (w1 := {| heap := <[l := Spec.with_content_headers data_str
                                 content_type d]> (heap w);
                wire := wire w |}).
  destruct (bodied_cases self uri op data_str (Some l) url_params
              escape_params w1) as (evs & Hout & Hcases).
  exists evs. rewrite Hout. split; [done|].
  destruct Hcases as [[-> He]|(c & Ha & Hc1 & Hc2 & Hrun)]; [by left|].
  right. exists c, data_str, l, d.
  split; [done|]. split; [done|]. split; [done|]. split; [done|].
  split; [exact Hc1|]. split; [|exact Hrun].
  simpl in Hc2. by rewrite lookup_insert_eq in Hc2.
Qed.

(** A header block comes first in whatever a request leaves. *)
Lemma first_block_bodiless (P : connection -> Prop)
    (r : result HTTPResponse) (evs log : list event) (c : connection) :
  P c -> (r, evs) = Spec.bodiless_outcome log c -> Spec.first_block P r evs.
Proof.
  intros HP Hrun. destruct (bodiless_first_event log c) as [rest Hrest].
  apply (f_equal snd) in Hrun. simpl in Hrun. rewrite Hrun, Hrest. exact HP.
Qed.

Lemma first_block_bodied (P : connection -> Prop)
    (r : result HTTPResponse) (evs log : list event) (c : connection)
    (data_str : string) :
  P c -> (r, evs) = Spec.bodied_outcome log c data_str ->
  Spec.first_block P r evs.
Proof.
  intros HP Hrun.
  destruct (bodied_first_event log c data_str) as [rest Hrest].
  apply (f_equal snd) in Hrun. simpl in Hrun. rewrite Hrun, Hrest. exact HP.
Qed.

End RequestRuns.

(** ** URL resolution on every string *)

Section UrlExtras.
Import Py service.

(** The two outcomes of [_ProcessUrl]. *)
Lemma ProcessUrl_cases (self : AtomService) (url : string) :
  (String.prefix "http://" url = false
   /\ String.prefix "https://" url = false
   /\ _ProcessUrl self url
      = Ok (self.(server), self.(service.port), self.(ssl), url))
  \/ (exists https host port path junk,
        url = Spec.absolute_url https host port path +:+ junk
        /\ Spec.well_formed host port path = true
        /\ _ProcessUrl self url
           = Ok (Some host,
                 match port with
                 | Some d => Spec.decimal d
                 | None => if https then 443%Z else self.(service.port)
                 end,
                 if https then true else self.(ssl),
                 match path with Some r => "/" +:+ r | None => "/" end)).
Proof.
  destruct (re.match_ URL_REGEX url) as [m|] eqn:Hm.
  - right.
    destruct (URL_REGEX_match_parts_inv url m Hm)
      as (https & host & port & path & junk & Hurl & Hwf & ->).
    exists https, host, port, path, junk. split; [done|]. split; [done|].
    by apply ProcessUrl_groups.
  - left.
    assert (H1 : String.prefix "http://" url = false).
    { destruct (String.prefix "http://" url) eqn:Hp; [|done].
      apply prefix_inv in Hp as [rest ->].
      destruct (URL_REGEX_match_total false rest) as [m' Hm'].
      simpl in Hm'. simpl in Hm. congruence. }
    assert (H2 : String.prefix "https://" url = false).
    { destruct (String.prefix "https://" url) eqn:Hp; [|done].
      apply prefix_inv in Hp as [rest ->].
      destruct (URL_REGEX_match_total true rest) as [m' Hm'].
      simpl in Hm'. simpl in Hm. congruence. }
    split; [done|]. split; [done|]. unfold _ProcessUrl. by rewrite Hm.
Qed.

(** X1: [_ProcessUrl] raises on no string, and what it returns is read
    off the string. A string that starts with neither [http://] nor
    [https://] comes back whole with the client's own server, port and
    encryption setting. Any other string is a well-formed
    [scheme://host[:port][/path]] followed by text the pattern leaves
    unread: the host is the longest run of host characters, the port the
    longest run of digits after a colon, the path everything up to the
    first line feed. Whichever way a string is split like this, it
    resolves to that host, to the port written in it (443 for https and
    the client's port for http when none is written), to encryption on
    for https and as configured for http, and to that path (a single
    slash when none is written). *)
Theorem ProcessUrl_resolves (self : AtomService) :
  let resolved (https : bool) (host : string) (port path : option string) :=
    Ok (Some host,
        match port with
        | Some d => Spec.decimal d
        | None => if https then 443%Z else self.(service.port)
        end,
        if https then true else self.(ssl),
        match path with Some r => "/" +:+ r | None => "/" end) in
  (forall url,
     (String.prefix "http://" url = false
      /\ String.prefix "https://" url = false
      /\ _ProcessUrl self url
         = Ok (self.(server), self.(service.port), self.(ssl), url))
     \/ (exists https host port path junk,
           url = Spec.absolute_url https host port path +:+ junk
           /\ Spec.well_formed host port path = true
           /\ Spec.unread_tail port path junk = true
           /\ _ProcessUrl self url = resolved https host port path))
  /\ (forall https host port path junk,
        Spec.well_formed host port path = true ->
        Spec.unread_tail port path junk = true ->
        _ProcessUrl self (Spec.absolute_url https host port path +:+ junk)
        = resolved https host port path).
Proof.
  intros resolved.
  assert (Hforward : forall https host port path junk,
    Spec.well_formed host port path = true ->
    Spec.unread_tail port path junk = true ->
    _ProcessUrl self (Spec.absolute_url https host port path +:+ junk)
    = resolved https host port path).
  { intros https host port path junk Hwf Hjunk.
    apply ProcessUrl_groups; [done|]. by apply URL_REGEX_match_unread. }
  split; [|exact Hforward].
  assert (Hscheme : forall (https : bool) rest,
    exists https' host port path junk,
      "http" +:+ (if https then "s" else "") +:+ "://" +:+ rest
      = Spec.absolute_url https' host port path +:+ junk
      /\ Spec.well_formed host port path = true
      /\ Spec.unread_tail port path junk = true
      /\ _ProcessUrl self
           ("http" +:+ (if https then "s" else "") +:+ "://" +:+ rest)
         = resolved https' host port path).
  { intros https rest.
    destruct (url_parts_exist rest)
      as (host & port & path & junk & -> & Hwf & Hjunk).
    exists https, host, port, path, junk.
    assert (Heq : "http" +:+ (if https then "s" else "") +:+ "://"
                    +:+ host
                    +:+ match port with Some d => ":" +:+ d | None => "" end
                    +:+ match path with Some r => "/" +:+ r | None => "" end
                    +:+ junk
                  = Spec.absolute_url https host port path +:+ junk).
    { unfold Spec.absolute_url. by rewrite !str_app_assoc. }
    split; [exact Heq|]. split; [done|]. split; [done|].
    rewrite Heq. by apply Hforward. }
  intros url.
  destruct (String.prefix "http://" url) eqn:H1.
  { right. apply prefix_inv in H1 as [rest ->]. apply (Hscheme false rest). }
  destruct (String.prefix "https://" url) eqn:H2.
  { right. apply prefix_inv in H2 as [rest ->]. apply (Hscheme true rest). }
  left. split; [done|]. split; [done|].
  unfold _ProcessUrl. by rewrite URL_REGEX_no_scheme.
Qed.

(** X2: the scheme alone decides encryption. Whatever follows it, a
    string that starts with [https://] resolves with encryption on, and a
    string that starts with [http://] with the client's own setting. *)
Theorem ProcessUrl_encryption_by_scheme (self : AtomService)
    (rest : string) :
  (exists server port uri,
     _ProcessUrl self ("https://" +:+ rest) = Ok (server, port, true, uri))
  /\ (exists server port uri,
        _ProcessUrl self ("http://" +:+ rest)
        = Ok (server, port, self.(ssl), uri)).
Proof.
  split.
  - destruct (ProcessUrl_cases self ("https://" +:+ rest))
      as [(_ & H & _)|(https & host & port & path & junk & Hurl & _ & ->)].
    + by rewrite prefix_app in H.
    + destruct https; [eauto|]. discriminate Hurl.
  - destruct (ProcessUrl_cases self ("http://" +:+ rest))
      as [(H & _ & _)|(https & host & port & path & junk & Hurl & _ & ->)].
    + by rewrite prefix_app in H.
    + destruct https; [discriminate Hurl | eauto].
Qed.

(** X3: the uri [_ProcessUrl] returns is never an absolute URL itself:
    resolving it again changes nothing and yields the client's own
    server, port and encryption setting. *)
Theorem ProcessUrl_uri_is_relative (self : AtomService) (url : string) :
  exists server port ssl_ uri,
    _ProcessUrl self url = Ok (server, port, ssl_, uri)
    /\ _ProcessUrl self uri
       = Ok (self.(service.server), self.(service.port), self.(ssl), uri).
Proof.
  destruct (ProcessUrl_cases self url)
    as [(_ & _ & H)|(https & host & port & path & junk & _ & _ & H)].
  - do 4 eexists. split; [exact H|exact H].
  - do 4 eexists. split; [exact H|].
    unfold _ProcessUrl. rewrite URL_REGEX_no_scheme; [done|..];
      by destruct path.
Qed.

(** X4: the pattern is not anchored at the end of the string. Text after
    a well-formed URL that cannot extend its last part is dropped without
    notice: a query or fragment that follows the host or the port
    directly, and whatever follows a line feed in the path. *)
Theorem ProcessUrl_ignores_tail (self : AtomService) (https : bool)
    (host : string) (port path : option string) (junk : string)
    (Hurl : Spec.well_formed host port path = true)
    (Hjunk : Spec.dropped_tail port path junk = true) :
  _ProcessUrl self (Spec.absolute_url https host port path +:+ junk)
  = _ProcessUrl self (Spec.absolute_url https host port path).
Proof.
  rewrite (ProcessUrl_absolute self https host port path Hurl).
  apply ProcessUrl_groups; [done|]. by apply URL_REGEX_match_tail.
Qed.

(** X5: an http URL without a port of its own does not fall back to port
    80: it resolves to its host on the port the client is configured
    with, with the client's encryption setting, and to the path [/] when
    it has none. *)
Theorem ProcessUrl_http_keeps_client_port (self : AtomService)
    (host : string) (path : option string)
    (Hurl : Spec.well_formed host None path = true) :
  _ProcessUrl self ("http://" +:+ host
                      +:+ match path with Some r => "/" +:+ r | None => "" end)
  = Ok (Some host, self.(service.port), self.(ssl),
        match path with Some r => "/" +:+ r | None => "/" end).
Proof.
  rewrite <- (ProcessUrl_absolute self false host None path Hurl).
  reflexivity.
Qed.

End UrlExtras.

(** ** Get, Delete, Post and Put on the network *)

Section RequestExtras.
Import Py World service.
Context {ET : ElementTree} {net : httplib}.

(** X6: [Get] and [Delete] change no dict and send no body. Either the
    call raises before anything reaches the network, or it composes
    exactly one header block: made out for GET or DELETE and for the
    host, port and encryption setting that [_ProcessUrl] resolves the uri
    with its parameters to, and with every line of the client's dict and
    of the caller's put on it. The response is read only when that block
    went out, and a failure of the network is returned as it is. *)
Theorem Get_Delete_traffic (self : AtomService) (uri : string)
    (extra_headers : option nat) (url_params : option (gmap string string))
    (escape_params : bool) (w : world) :
  let quiet (call : M HTTPResponse) (method : string) :=
    exists evs,
      (call w).2 = {| heap := heap w; wire := wire w ++ evs |}
      /\ ((evs = [] /\ exists e, (call w).1 = Raise e)
          \/ exists c,
               Spec.addressed self uri url_params escape_params method c
               /\ Spec.carries_dict (heap w !! self.(additional_headers)) c
               /\ Spec.carries_dict (extra_headers ≫= (heap w !!.)) c
               /\ ((call w).1, evs) = Spec.bodiless_outcome (wire w) c) in
  quiet (Get self uri extra_headers url_params escape_params) "GET"
  /\ quiet (Delete self uri extra_headers url_params escape_params) "DELETE".
Proof.
  intros quiet. split.
  - apply (bodiless_cases self uri "GET" extra_headers url_params
             escape_params w).
  - apply (bodiless_cases self uri "DELETE" extra_headers url_params
             escape_params w).
Qed.


(** X8: [Post] and [Put] send the serialized body and announce its
    length. The body is the text [ElementTree.tostring] gives for an
    element, the string itself for a string, and what [__str__] returns
    for any other object. Either the call raises before anything reaches
    the network, or it composes exactly one header block, made out for
    POST or PUT and for the resolved host, port and encryption setting,
    on which the lines [Content-Length], with the byte length of that
    body, and [Content-Type] are put; then that body and nothing else is
    sent, only when the header block went out; the response is read only
    when the body went out, and a failure of the network is returned as
    it is. *)
Theorem Post_Put_traffic (self : AtomService) (data : data) (uri : string)
    (extra_headers : option nat) (url_params : option (gmap string string))
    (escape_params : bool) (content_type : string) (w : world)
    (data_str : string)
    (Hbody : Spec.body_text data data_str) :
  let length := VInt (Z.of_nat (String.length data_str)) in
  let sends (call : M HTTPResponse) (method : string) :=
    exists evs,
      wire (call w).2 = (wire w ++ evs)%list
      /\ ((evs = [] /\ exists e, (call w).1 = Raise e)
          \/ exists c,
               Spec.addressed self uri url_params escape_params method c
               /\ ("Content-Length", length) ∈ conn_headers c
               /\ ("Content-Type", VStr content_type) ∈ conn_headers c
               /\ ((call w).1, evs)
                  = Spec.bodied_outcome (wire w) c data_str) in
  sends (Post self data uri extra_headers url_params escape_params
           content_type) "POST"
  /\ sends (Put self data uri extra_headers url_params escape_params
              content_type) "PUT".
Proof.
  intros length sends.
  pose proof (serialize_body_text data data_str Hbody) as Hdata.
  assert (Hverb : forall op,
    let out :=
      match serialize data with
      | Ok data_str =>
          match bind (setitem extra_headers "Content-Length"
                        (VInt (Z.of_nat (String.length data_str))))
                  (fun _ => setitem extra_headers "Content-Type"
                              (VStr content_type)) w with
          | (Ok _, w') =>
              bind (_CreateConnection self uri op extra_headers url_params
                      escape_params)
                (fun c => bind (send c data_str) (fun _ => getresponse c)) w'
          | (Raise e, w') => (Raise e, w')
          end
      | Raise e => (Raise e, w)
      end in
    exists evs,
      wire out.2 = (wire w ++ evs)%list
      /\ ((evs = [] /\ exists e, out.1 = Raise e)
          \/ exists c,
               Spec.addressed self uri url_params escape_params op c
               /\ ("Content-Length", length) ∈ conn_headers c
               /\ ("Content-Type", VStr content_type) ∈ conn_headers c
               /\ (out.1, evs) = Spec.bodied_outcome (wire w) c data_str)).
  { intros op.
    destruct (bodied_verb_cases self data uri op extra_headers url_params
                escape_params content_type w) as (evs & Hw & Hcases).
    exists evs. split; [exact Hw|].
    destruct Hcases
      as [He|(c & s' & l & d & Hs' & _ & _ & Ha & _ & Hc & Hrun)];
      [by left|].
    right. exists c. rewrite Hdata in Hs'. injection Hs' as <-.
    split; [done|]. split; [|split; [|done]]; apply Hc; simpl;
      unfold Spec.with_content_headers.
    - by rewrite lookup_insert_ne, lookup_insert_eq.
    - by rewrite lookup_insert_eq. }
  subst sends. cbv beta. rewrite Post_unfold, Put_unfold. split; apply Hverb.
Qed.

End RequestExtras.

(** ** Escaped parameters and repeated BuildUri *)

Section ParamExtras.
Import Py service.

Lemma form_urlencode_char_safe (c : ascii) :
  all_chars Spec.query_safe (Spec.form_urlencode_char c) = true.
Proof. destruct c as [[] [] [] [] [] [] [] []]; reflexivity. Qed.

Lemma form_urlencode_safe (s : string) :
  all_chars Spec.query_safe (Spec.form_urlencode s) = true.
Proof.
  unfold Spec.form_urlencode. induction s as [|c s IH]; simpl; [done|].
  by rewrite all_chars_app, form_urlencode_char_safe, IH.
Qed.

(** [BuildUri] with parameters, as one concatenation. *)
Lemma BuildUri_params (uri : string) (params : gmap string string)
    (escape_params : bool) :
  params <> ∅ ->
  BuildUri uri (Some params) escape_params
  = uri +:+ (if contains "?" uri then "&" else "?")
        +:+ join "&" (DictionaryToParamList (Some params) escape_params).
Proof.
  intros Hparams. unfold BuildUri.
  pose proof (DictionaryToParamList_nonempty params escape_params Hparams)
    as Hne.
  destruct (DictionaryToParamList (Some params) escape_params)
    as [|p ps] eqn:Hlist; [done|].
  rewrite find_contains. destruct (contains "?" uri).
  - simpl app. by rewrite join_cons.
  - reflexivity.
Qed.

(** [BuildUri] leaves the uri alone or appends to it, starting with a
    question mark or an ampersand. *)
Lemma BuildUri_appends (uri : string)
    (url_params : option (gmap string string)) (escape_params : bool) :
  BuildUri uri url_params escape_params = uri
  \/ exists c x, (c = "?"%char \/ c = "&"%char)
       /\ BuildUri uri url_params escape_params = uri +:+ String c x.
Proof.
  destruct url_params as [params|];
    [|left; unfold BuildUri; by rewrite DictionaryToParamList_None].
  destruct (decide (params = ∅)) as [->|Hne];
    [left; unfold BuildUri; by rewrite DictionaryToParamList_empty|].
  right. rewrite (BuildUri_params uri params escape_params Hne).
  destruct (contains "?" uri); eauto.
Qed.

(** X9: with escaping on, every string [DictionaryToParamList] returns
    is made of letters, digits, underscore, dot, hyphen, plus, percent and
    the equals sign only: in particular it holds no ampersand, no
    question mark, no hash and no space, so that an escaped key or value
    cannot add a parameter or end the query. *)
Theorem DictionaryToParamList_escaped_safe (params : gmap string string)
    (x : string)
    (Hx : x ∈ DictionaryToParamList (Some params) true) :
  all_chars Spec.query_safe x = true
  /\ contains "&" x = false /\ contains "?" x = false
  /\ contains "#" x = false /\ contains " " x = false.
Proof.
  assert (Hsafe : all_chars Spec.query_safe x = true).
  { apply elem_of_DictionaryToParamList in Hx as (k & v & _ & ->).
    rewrite !quote_plus_form_urlencode, !all_chars_app, !form_urlencode_safe.
    reflexivity. }
  split; [done|].
  repeat split; by apply (contains_all_chars Spec.query_safe).
Qed.

(** X10: parameters added in two rounds end up in one query: whatever the
    uri, after a first non-empty round the result holds a question mark,
    so a second round is always joined on with an ampersand. *)
Theorem BuildUri_twice (uri : string) (params1 params2 : gmap string string)
    (escape1 escape2 : bool)
    (Hparams1 : params1 <> ∅) (Hparams2 : params2 <> ∅) :
  contains "?" (BuildUri uri (Some params1) escape1) = true
  /\ BuildUri (BuildUri uri (Some params1) escape1) (Some params2) escape2
     = BuildUri uri (Some params1) escape1 +:+ "&"
         +:+ join "&" (DictionaryToParamList (Some params2) escape2).
Proof.
  assert (H : contains "?" (BuildUri uri (Some params1) escape1) = true).
  { rewrite (BuildUri_params uri params1 escape1 Hparams1).
    rewrite contains_app. destruct (contains "?" uri) eqn:Hq; [done|].
    reflexivity. }
  split; [exact H|].
  rewrite (BuildUri_params _ params2 escape2 Hparams2). by rewrite H.
Qed.

End ParamExtras.

(** ** Requests end to end *)

Section EndToEnd.
Import Py World service.
Context {ET : ElementTree} {net : httplib}.

Lemma prefix_app_sep (p u : string) (c : ascii) (x : string) :
  contains c p = false -> String.prefix p u = false ->
  String.prefix p (u +:+ String c x) = false.
Proof.
  revert u. induction p as [|a p IH]; intros [|b u] Hc Hp; simpl in *;
    try done.
  - destruct (Ascii.eqb_spec c a) as [->|Hne]; [done|].
    destruct (ascii_dec a c) as [->|]; [done|done].
  - destruct (Ascii.eqb c a); [done|].
    destruct (ascii_dec a b); [by apply IH | done].
Qed.

(** Parameters do not give a uri a scheme. *)
Lemma BuildUri_no_scheme (uri : string)
    (url_params : option (gmap string string)) (escape_params : bool) :
  String.prefix "http://" uri = false ->
  String.prefix "https://" uri = false ->
  String.prefix "http://" (BuildUri uri url_params escape_params) = false
  /\ String.prefix "https://" (BuildUri uri url_params escape_params)
     = false.
Proof.
  intros H1 H2.
  destruct (BuildUri_appends uri url_params escape_params)
    as [->|(c & x & Hc & ->)]; [done|].
  split; apply prefix_app_sep; try done; by destruct Hc as [->| ->].
Qed.

(** X11: parameters never turn a relative uri into an absolute one. For
    a uri that starts with neither [http://] nor [https://],
    [_ProcessUrl] applied to what [BuildUri] makes of the uri and its
    parameters returns the client's own server, port and encryption
    setting and that text unchanged; so whatever header block [Get],
    [Delete], [Post] or [Put] composes for such a uri is made out for the
    client's own server, port and encryption setting. *)
Theorem relative_uri_target (self : AtomService) (data : data)
    (uri : string) (extra_headers : option nat)
    (url_params : option (gmap string string)) (escape_params : bool)
    (content_type : string) (w : world)
    (Hhttp : String.prefix "http://" uri = false)
    (Hhttps : String.prefix "https://" uri = false) :
  let own (call : M HTTPResponse) :=
    exists evs,
      wire (call w).2 = (wire w ++ evs)%list
      /\ Spec.first_block
           (fun c => conn_host c = self.(server)
                     /\ conn_port c = self.(port)
                     /\ conn_ssl c = self.(ssl))
           (call w).1 evs in
  _ProcessUrl self (BuildUri uri url_params escape_params)
  = Ok (self.(server), self.(port), self.(ssl),
        BuildUri uri url_params escape_params)
  /\ own (Get self uri extra_headers url_params escape_params)
  /\ own (Delete self uri extra_headers url_params escape_params)
  /\ own (Post self data uri extra_headers url_params escape_params
            content_type)
  /\ own (Put self data uri extra_headers url_params escape_params
            content_type).
Proof.
  intros own.
  destruct (BuildUri_no_scheme uri url_params escape_params Hhttp Hhttps)
    as [Hb1 Hb2].
  assert (Hurl : _ProcessUrl self (BuildUri uri url_params escape_params)
                 = Ok (self.(server), self.(port), self.(ssl),
                       BuildUri uri url_params escape_params)).
  { unfold _ProcessUrl. by rewrite (URL_REGEX_no_scheme _ Hb1 Hb2). }
  assert (Hown : forall op c,
    Spec.addressed self uri url_params escape_params op c ->
    conn_host c = self.(server) /\ conn_port c = self.(port)
    /\ conn_ssl c = self.(ssl)).
  { intros op c (_ & sel & Hc). rewrite Hurl in Hc. by injection Hc as -> -> ->. }
  assert (Hbodiless : forall op,
    own (bind (_CreateConnection self uri op extra_headers url_params
                 escape_params) getresponse)).
  { intros op.
    destruct (bodiless_cases self uri op extra_headers url_params
                escape_params w) as (evs & Hw & Hcases).
    exists evs. rewrite Hw. split; [done|].
    destruct Hcases as [[-> He]|(c & Ha & _ & _ & Hrun)]; [exact He|].
    eapply first_block_bodiless; [|exact Hrun]. by apply (Hown op). }
  assert (Hbodied : forall op,
    exists evs,
      wire (match serialize data with
            | Ok data_str =>
                match bind (setitem extra_headers "Content-Length"
                              (VInt (Z.of_nat (String.length data_str))))
                        (fun _ => setitem extra_headers "Content-Type"
                                    (VStr content_type)) w with
                | (Ok _, w') =>
                    bind (_CreateConnection self uri op extra_headers
                            url_params escape_params)
                      (fun c => bind (send c data_str)
                                  (fun _ => getresponse c)) w'
                | (Raise e, w') => (Raise e, w')
                end
            | Raise e => (Raise e, w)
            end).2 = (wire w ++ evs)%list
      /\ Spec.first_block
           (fun c => conn_host c = self.(server)
                     /\ conn_port c = self.(port)
                     /\ conn_ssl c = self.(ssl))
           (match serialize data with
            | Ok data_str =>
                match bind (setitem extra_headers "Content-Length"
                              (VInt (Z.of_nat (String.length data_str))))
                        (fun _ => setitem extra_headers "Content-Type"
                                    (VStr content_type)) w with
                | (Ok _, w') =>
                    bind (_CreateConnection self uri op extra_headers
                            url_params escape_params)
                      (fun c => bind (send c data_str)
                                  (fun _ => getresponse c)) w'
                | (Raise e, w') => (Raise e, w')
                end
            | Raise e => (Raise e, w)
            end).1 evs).
  { intros op.
    destruct (bodied_verb_cases self data uri op extra_headers url_params
                escape_params content_type w) as (evs & Hw & Hcases).
    exists evs. split; [exact Hw|].
    destruct Hcases
      as [[-> He]|(c & s' & l & d & _ & _ & _ & Ha & _ & _ & Hrun)];
      [exact He|].
    eapply first_block_bodied; [|exact Hrun]. by apply (Hown op). }
  split; [exact Hurl|]. split; [apply (Hbodiless "GET")|].
  split; [apply (Hbodiless "DELETE")|].
  subst own. cbv beta. rewrite Post_unfold, Put_unfold.
  split; apply Hbodied.
Qed.




(** X14: once [UseBasicAuth] has run, every header block the client
    composes carries the [Authorization] line, whichever of [Get],
    [Delete], [Post] and [Put] is called and whatever the caller's dict:
    the call raises before anything reaches the network, or the first
    thing it hands on is a header block with that line on it. The value
    is [Basic ] and the base64 text of [username:password], with a line
    feed after every 76 characters of it when the credentials are longer
    than 57 bytes. *)
Theorem UseBasicAuth_then_requests (self : AtomService) (data : data)
    (username password uri : string) (extra_headers : option nat)
    (url_params : option (gmap string string)) (escape_params : bool)
    (content_type : string) (w : world) (da : gmap string value)
    (Hda : heap w !! self.(additional_headers) = Some da) :
  let credentials := username +:+ ":" +:+ password in
  let value := "Basic " +:+ Spec.wrap 76 (Spec.base64_text credentials) in
  let w1 := (UseBasicAuth self username password w).2 in
  let authorized (call : M HTTPResponse) :=
    exists evs,
      wire (call w1).2 = (wire w ++ evs)%list
      /\ Spec.first_block
           (fun c => ("Authorization", VStr value) ∈ conn_headers c)
           (call w1).1 evs in
  authorized (Get self uri extra_headers url_params escape_params)
  /\ authorized (Delete self uri extra_headers url_params escape_params)
  /\ authorized (Post self data uri extra_headers url_params escape_params
                   content_type)
  /\ authorized (Put self data uri extra_headers url_params escape_params
                   content_type)
  /\ (String.length credentials <= 57 ->
      value = "Basic " +:+ Spec.base64_text credentials).
Proof.
  intros credentials value w1 authorized.
  assert (Hne : credentials <> "") by (subst credentials; by destruct username).
  assert (Hw1 : w1 = {| heap := <[self.(additional_headers) :=
                                   <["Authorization" := VStr value]> da]>
                                 (heap w);
                        wire := wire w |}).
  { subst w1 value. unfold UseBasicAuth.
    rewrite (dict_setitem_run _ _ _ _ _ Hda). fold credentials.
    by rewrite (strip_encodestring_wrap credentials Hne). }
  assert (Hwire : wire w1 = wire w) by (by rewrite Hw1).
  assert (Hline : (heap w1 !! self.(additional_headers))
                    ≫= (.!! "Authorization") = Some (VStr value)).
  { rewrite Hw1. simpl. rewrite lookup_insert_eq. simpl.
    apply lookup_insert_eq. }
  assert (Hbodiless : forall op,
    authorized (bind (_CreateConnection self uri op extra_headers url_params
                        escape_params) getresponse)).
  { intros op.
    destruct (bodiless_cases self uri op extra_headers url_params
                escape_params w1) as (evs & Hw & Hcases).
    exists evs. rewrite Hw. simpl. rewrite Hwire. split; [done|].
    destruct Hcases as [[-> He]|(c & _ & Hc & _ & Hrun)]; [exact He|].
    eapply first_block_bodiless; [|exact Hrun]. by apply Hc. }
  assert (Hbodied : forall op,
    let out :=
      match serialize data with
      | Ok data_str =>
          match bind (setitem extra_headers "Content-Length"
                        (VInt (Z.of_nat (String.length data_str))))
                  (fun _ => setitem extra_headers "Content-Type"
                              (VStr content_type)) w1 with
          | (Ok _, w') =>
              bind (_CreateConnection self uri op extra_headers url_params
                      escape_params)
                (fun c => bind (send c data_str) (fun _ => getresponse c)) w'
          | (Raise e, w') => (Raise e, w')
          end
      | Raise e => (Raise e, w1)
      end in
    exists evs,
      wire out.2 = (wire w ++ evs)%list
      /\ Spec.first_block
           (fun c => ("Authorization", VStr value) ∈ conn_headers c)
           out.1 evs).
  { intros op.
    destruct (bodied_verb_cases self data uri op extra_headers url_params
                escape_params content_type w1) as (evs & Hw & Hcases).
    exists evs. rewrite <- Hwire. split; [exact Hw|].
    destruct Hcases
      as [[-> He]|(c & s' & l & d & _ & _ & Hd & _ & Hc & _ & Hrun)];
      [exact He|].
    eapply first_block_bodied; [|exact Hrun]. apply Hc.
    destruct (decide (l = self.(additional_headers))) as [->|Hl].
    - rewrite lookup_insert_eq. simpl. unfold Spec.with_content_headers.
      rewrite !lookup_insert_ne by done.
      rewrite Hd in Hline. exact Hline.
    - by rewrite lookup_insert_ne. }
  split; [apply (Hbodiless "GET")|]. split; [apply (Hbodiless "DELETE")|].
  subst authorized. cbv beta. rewrite Post_unfold, Put_unfold.
  split; [apply Hbodied|]. split; [apply Hbodied|].
  intros Hlen. subst value. f_equal. apply wrap_from_short.
  rewrite <- (proj1 (b64_base64_text credentials)).
  apply (b64_length 19 credentials). lia.
Qed.

End EndToEnd.

(** ** Clients and their header dicts *)

Section ClientExtras.
Import Py World service.

Local Abbreviation user_agent := (VStr "Python Google Data Client Lib").

(** The constructor when it makes a dict of its own. *)
Lemma init_fresh (server : option string) (additional_headers : option nat)
    (w : world) :
  (forall l, additional_headers = Some l -> heap w !! l = Some ∅) ->
  __init__ server additional_headers w
  = (Ok {| server := server; port := 80; ssl := false;
           service.additional_headers := fresh (dom (heap w)) |},
     {| heap := <[fresh (dom (heap w)) := {[ "User-Agent" := user_agent ]}]>
                  (heap w);
        wire := wire w |}).
Proof.
  intros Hempty. unfold __init__, bind, dict_read.
  destruct additional_headers as [l|].
  - rewrite (Hempty l eq_refl). rewrite bool_decide_eq_true_2 by done.
    unfold dict_new. erewrite dict_setitem_run by apply lookup_insert_eq.
    simpl. by rewrite insert_insert_eq, insert_empty.
  - unfold dict_new. erewrite dict_setitem_run by apply lookup_insert_eq.
    simpl. by rewrite insert_insert_eq, insert_empty.
Qed.

(** The constructor when it takes the caller's dict. *)
Lemma init_alias (server : option string) (l : nat) (w : world)
    (d : gmap string value) :
  heap w !! l = Some d -> d <> ∅ ->
  __init__ server (Some l) w
  = (Ok {| server := server; port := 80; ssl := false;
           additional_headers := l |},
     {| heap := <[l := <["User-Agent" := user_agent]> d]> (heap w);
        wire := wire w |}).
Proof.
  intros Hd Hne. unfold __init__, bind, dict_read. rewrite Hd.
  rewrite bool_decide_eq_false_2 by done. unfold ret at 1.
  by rewrite (dict_setitem_run _ _ _ _ _ Hd).
Qed.

Lemma fresh_not_in_heap (w : world) (l : nat) :
  is_Some (heap w !! l) -> fresh (dom (heap w)) <> l.
Proof.
  intros Hl Heq. apply (is_fresh (dom (heap w))). rewrite Heq.
  by apply elem_of_dom.
Qed.

Lemma fresh_lookup (w : world) : heap w !! fresh (dom (heap w)) = None.
Proof. apply not_elem_of_dom, is_fresh. Qed.

(** X15: whatever the constructor is given (nothing, an empty dict, a
    dict with a [User-Agent] of its own), the client it returns has port
    80, encryption off and a header dict in which [User-Agent] is the
    library's name and every other name has the value the caller gave it;
    nothing is sent, and no other object changes. *)
Theorem init_headers (server : option string)
    (additional_headers : option nat) (w : world)
    (Hheaders : forall l, additional_headers = Some l ->
                  is_Some (heap w !! l)) :
  exists self w' d',
    __init__ server additional_headers w = (Ok self, w')
    /\ self.(service.server) = server
    /\ self.(port) = 80%Z /\ self.(ssl) = false
    /\ wire w' = wire w
    /\ heap w' !! self.(service.additional_headers) = Some d'
    /\ d' !! "User-Agent" = Some user_agent
    /\ (forall k, k <> "User-Agent" ->
          d' !! k = (additional_headers ≫= (heap w !!.)) ≫= (.!! k))
    /\ (forall l, l <> self.(service.additional_headers) ->
          heap w' !! l = heap w !! l).
Proof.
  assert (Hfresh : (forall l, additional_headers = Some l ->
                      heap w !! l = Some ∅) ->
    (additional_headers ≫= (heap w !!.) = None
     \/ additional_headers ≫= (heap w !!.) = Some ∅) ->
    exists self w' d',
      __init__ server additional_headers w = (Ok self, w')
      /\ self.(service.server) = server
      /\ self.(port) = 80%Z /\ self.(ssl) = false
      /\ wire w' = wire w
      /\ heap w' !! self.(service.additional_headers) = Some d'
      /\ d' !! "User-Agent" = Some user_agent
      /\ (forall k, k <> "User-Agent" ->
            d' !! k = (additional_headers ≫= (heap w !!.)) ≫= (.!! k))
      /\ (forall l, l <> self.(service.additional_headers) ->
            heap w' !! l = heap w !! l)).
  { intros Hempty Hgiven.
    exists {| server := server; port := 80; ssl := false;
              service.additional_headers := fresh (dom (heap w)) |},
           {| heap := <[fresh (dom (heap w)) :=
                          {[ "User-Agent" := user_agent ]}]> (heap w);
              wire := wire w |},
           {[ "User-Agent" := user_agent ]}.
    split; [by apply init_fresh|]. simpl.
    split; [done|]. split; [done|]. split; [done|]. split; [done|].
    split; [apply lookup_insert_eq|]. split; [apply lookup_singleton_eq|].
    split.
    - intros k Hk. rewrite lookup_singleton_ne by done.
      by destruct Hgiven as [-> | ->].
    - intros l Hl. by rewrite lookup_insert_ne. }
  destruct additional_headers as [l|].
  - destruct (Hheaders l eq_refl) as [d Hd].
    destruct (decide (d = ∅)) as [->|Hne].
    + apply Hfresh; [by intros ? [= <-] | by right].
    + exists {| server := server; port := 80; ssl := false;
                service.additional_headers := l |},
             {| heap := <[l := <["User-Agent" := user_agent]> d]> (heap w);
                wire := wire w |},
             (<["User-Agent" := user_agent]> d).
      split; [by apply init_alias|]. simpl.
      split; [done|]. split; [done|]. split; [done|]. split; [done|].
      split; [apply lookup_insert_eq|]. split; [apply lookup_insert_eq|].
      split.
      * intros k Hk. rewrite Hd. simpl. by rewrite lookup_insert_ne.
      * intros l' Hl'. by rewrite lookup_insert_ne.
  - apply Hfresh; [done | by left].
Qed.

(** X16: two clients built from the same non-empty dict share it: both
    refer to the caller's dict, so [UseBasicAuth] on the first puts the
    [Authorization] entry into the headers of the second (and into the
    caller's dict). *)
Theorem clients_share_caller_dict (server1 server2 : option string)
    (l : nat) (username password : string) (w : world)
    (d : gmap string value)
    (Hd : heap w !! l = Some d) (Hne : d <> ∅) :
  let client1 := {| server := server1; port := 80; ssl := false;
                    additional_headers := l |} in
  let client2 := {| server := server2; port := 80; ssl := false;
                    additional_headers := l |} in
  exists w1 w2 d',
    __init__ server1 (Some l) w = (Ok client1, w1)
    /\ __init__ server2 (Some l) w1 = (Ok client2, w2)
    /\ heap (UseBasicAuth client1 username password w2).2
         !! client2.(additional_headers) = Some d'
    /\ d' !! "Authorization"
       = Some (VStr ("Basic " +:+ strip (base64.encodestring
                                           (username +:+ ":" +:+ password)))).
Proof.
  intros client1 client2.
  set (d1 := <["User-Agent" := user_agent]> d).
  assert (Hd1 : d1 <> ∅) by apply insert_non_empty.
  do 3 eexists. split; [by apply init_alias|].
  split.
  { apply init_alias with (d := d1); [apply lookup_insert_eq | done]. }
  unfold UseBasicAuth. erewrite dict_setitem_run by apply lookup_insert_eq.
  simpl. split; [apply lookup_insert_eq | apply lookup_insert_eq].
Qed.

(** X17: two clients built without headers do not share any: each gets a
    dict of its own, and [UseBasicAuth] on the first leaves the headers of
    the second at the [User-Agent] entry alone. *)
Theorem clients_without_headers_isolated (server1 server2 : option string)
    (username password : string) (w : world) :
  exists client1 client2 w1 w2,
    __init__ server1 None w = (Ok client1, w1)
    /\ __init__ server2 None w1 = (Ok client2, w2)
    /\ client1.(additional_headers) <> client2.(additional_headers)
    /\ heap (UseBasicAuth client1 username password w2).2
         !! client2.(additional_headers)
       = Some {[ "User-Agent" := user_agent ]}.
Proof.
  do 4 eexists. split; [by apply init_fresh|].
  split; [by apply init_fresh|].
  set (l1 := fresh (dom (heap w))).
  set (w1 := {| heap := <[l1 := {[ "User-Agent" := user_agent ]}]> (heap w);
                wire := wire w |}).
  set (l2 := fresh (dom (heap w1))).
  assert (Hl : l2 <> l1).
  { apply fresh_not_in_heap. simpl. rewrite lookup_insert_eq. by eexists. }
  simpl. split; [done|].
  unfold UseBasicAuth. simpl.
  erewrite dict_setitem_run.
  2:{ simpl. rewrite lookup_insert_ne by done. apply lookup_insert_eq. }
  simpl. rewrite lookup_insert_ne by done. apply lookup_insert_eq.
Qed.

(** X18: the [Authorization] value is one line exactly when the
    credentials are short: it holds a line feed if and only if
    [username:password] is longer than 57 bytes, the size at which the
    encoder starts a new line. *)
Theorem UseBasicAuth_line_feed (self : AtomService)
    (username password : string) (w : world) (d : gmap string value)
    (Hd : heap w !! self.(additional_headers) = Some d) :
  exists value,
    (heap (UseBasicAuth self username password w).2
       !! self.(additional_headers)) ≫= (.!! "Authorization")
    = Some (VStr value)
    /\ (contains newline value = true
        <-> 57 < String.length (username +:+ ":" +:+ password)).
Proof.
  set (credentials := username +:+ ":" +:+ password).
  exists ("Basic " +:+ strip (base64.encodestring credentials)). split.
  { unfold UseBasicAuth. rewrite (dict_setitem_run _ _ _ _ _ Hd). simpl.
    rewrite lookup_insert_eq. simpl. apply lookup_insert_eq. }
  assert (Hne : credentials <> "")
    by (subst credentials; by destruct username).
  rewrite contains_app.
  change (contains newline "Basic ") with false. rewrite orb_false_l.
  destruct (le_lt_dec (String.length credentials) 57) as [Hle|Hlt].
  - rewrite (encodestring_short credentials Hne Hle). split; [done|lia].
  - by rewrite (encodestring_long credentials Hlt).
Qed.

(** X19: a client built from a server name alone and asked to [Get] a uri
    without scheme talks plain http to its server on port 80 and names
    itself: the call raises before anything reaches the network, or the
    first thing it hands on is a header block made out for GET, for the
    server the client was built with, port 80 and no encryption, with the
    [User-Agent] line of the library on it. *)
Theorem fresh_client_Get {net : httplib} (server : option string)
    (uri : string) (extra_headers : option nat)
    (url_params : option (gmap string string))
    (escape_params : bool) (w : world)
    (Hhttp : String.prefix "http://" uri = false)
    (Hhttps : String.prefix "https://" uri = false) :
  exists self w1 evs,
    __init__ server None w = (Ok self, w1)
    /\ wire (Get self uri extra_headers url_params escape_params w1).2
       = (wire w ++ evs)%list
    /\ Spec.first_block
         (fun c => conn_method c = "GET"
                   /\ conn_host c = server /\ conn_port c = 80%Z
                   /\ conn_ssl c = false
                   /\ ("User-Agent", user_agent) ∈ conn_headers c)
         (Get self uri extra_headers url_params escape_params w1).1 evs.
Proof.
  set (self := {| server := server; port := 80; ssl := false;
                  additional_headers := fresh (dom (heap w)) |}).
  set (w1 := {| heap := <[fresh (dom (heap w)) :=
                            {[ "User-Agent" := user_agent ]}]> (heap w);
                wire := wire w |}).
  destruct (bodiless_cases self uri "GET" extra_headers url_params
              escape_params w1) as (evs & Hw & Hcases).
  exists self, w1, evs. split; [by apply init_fresh|].
  change (Get self uri extra_headers url_params escape_params w1)
    with (bind (_CreateConnection self uri "GET" extra_headers url_params
                  escape_params) getresponse w1).
  rewrite Hw. split; [done|].
  destruct Hcases as [[-> He]|(c & [Hm (sel & Hu)] & Hc & _ & Hrun)];
    [exact He|].
  eapply first_block_bodiless; [|exact Hrun].
  destruct (BuildUri_no_scheme uri url_params escape_params Hhttp Hhttps)
    as [Hb1 Hb2].
  unfold _ProcessUrl in Hu. rewrite (URL_REGEX_no_scheme _ Hb1 Hb2) in Hu.
  injection Hu as Hhost Hport Hssl _.
  split; [done|]. split; [done|]. split; [done|]. split; [done|].
  apply Hc. simpl. rewrite lookup_insert_eq. simpl.
  apply lookup_singleton_eq.
Qed.

End ClientExtras.

(** * The further properties at concrete inputs *)

Section ExtraWitnesses.
Import Py World service.

Local Abbreviation user_agent := (VStr "Python Google Data Client Lib").

Lemma ProcessUrl_ignores_tail_witness :
  Spec.well_formed "www.google.com" None None = true
  /\ Spec.dropped_tail None None "?q=camera" = true
  /\ _ProcessUrl Fixture.client "http://www.google.com?q=camera"
     = Ok (Some "www.google.com", 80%Z, false, "/").
Proof.
  split; [reflexivity|]. split; [reflexivity|].
  exact (ProcessUrl_ignores_tail Fixture.client false "www.google.com"
           None None "?q=camera" eq_refl eq_refl).
Defined.

Lemma ProcessUrl_http_keeps_client_port_witness :
  Spec.well_formed "www.google.com" None (Some "base/feeds") = true
  /\ _ProcessUrl Fixture.local_client "http://www.google.com/base/feeds"
     = Ok (Some "www.google.com", 8080%Z, false, "/base/feeds").
Proof.
  split; [reflexivity|].
  exact (ProcessUrl_http_keeps_client_port Fixture.local_client
           "www.google.com" (Some "base/feeds") eq_refl).
Defined.

Lemma ProcessUrl_resolves_witness :
  Spec.well_formed "example.com" None None = true
  /\ Spec.unread_tail None None ":abc/x" = true
  /\ _ProcessUrl Fixture.client "https://example.com:abc/x"
     = Ok (Some "example.com", 443%Z, true, "/")
  /\ Spec.well_formed "example.com" (Some "8080") (Some "feeds") = true
  /\ Spec.unread_tail (Some "8080") (Some "feeds")
       (String newline "more") = true
  /\ _ProcessUrl Fixture.client
       ("http://example.com:8080/feeds" +:+ String newline "more")
     = Ok (Some "example.com", 8080%Z, false, "/feeds").
Proof.
  destruct (ProcessUrl_resolves Fixture.client) as [_ H].
  split; [reflexivity|]. split; [reflexivity|]. split.
  { exact (H true "example.com" None None ":abc/x" eq_refl eq_refl). }
  split; [reflexivity|]. split; [reflexivity|].
  exact (H false "example.com" (Some "8080") (Some "feeds")
           (String newline "more") eq_refl eq_refl).
Defined.

Lemma Get_Delete_traffic_witness :
  exists c,
    conn_method c = "DELETE"
    /\ conn_host c = Some "example.com"
    /\ ("User-Agent", user_agent) ∈ conn_headers c
    /\ @Delete Fixture.offline Fixture.client "/base/feeds/items/1" None
         None true Fixture.world0
       = (Raise socket_error,
          {| heap := heap Fixture.world0; wire := [EndHeaders c] |}).
Proof.
  pose proof (@Get_Delete_traffic Fixture.offline Fixture.client
                "/base/feeds/items/1" None None true Fixture.world0) as H.
  cbv beta zeta in H. destruct H as [_ (evs & Hw & Hcases)].
  destruct Hcases as [[-> [e He]]|(c & [Hm (sel & Hu)] & Hc & _ & Hrun)].
  { discriminate Hw. }
  exists c. split; [exact Hm|]. split.
  { vm_compute in Hu. injection Hu as Hh _ _ _. symmetry. exact Hh. }
  split; [by apply Hc|].
  apply (f_equal snd) in Hrun. simpl in Hrun. subst evs.
  rewrite (surjective_pairing (@Delete Fixture.offline Fixture.client
                                 "/base/feeds/items/1" None None true
                                 Fixture.world0)).
  rewrite Hw. reflexivity.
Defined.


Lemma Post_Put_traffic_witness :
  let entry := @DElement Fixture.tagged_elements ("entry", "x") in
  @Spec.body_text Fixture.tagged_elements entry "<entry>x</entry>"
  /\ exists c,
       conn_method c = "POST"
       /\ ("Content-Length", VInt 16) ∈ conn_headers c
       /\ wire (@Post Fixture.tagged_elements Fixture.created Fixture.client
                  entry "/base/feeds/items" (Some 1%nat) None true
                  default_content_type Fixture.world0).2
          = [EndHeaders c; Send c "<entry>x</entry>"; GetResponse c].
Proof.
  intros entry.
  assert (Hs : @Spec.body_text Fixture.tagged_elements entry
                 "<entry>x</entry>") by reflexivity.
  split; [exact Hs|].
  pose proof (@Post_Put_traffic Fixture.tagged_elements Fixture.created
                Fixture.client entry "/base/feeds/items" (Some 1%nat) None
                true default_content_type Fixture.world0 "<entry>x</entry>"
                Hs) as H.
  cbv beta zeta in H. destruct H as [(evs & Hw & Hcases) _].
  destruct Hcases as [[-> [e He]]|(c & [Hm _] & Hlen & _ & Hrun)].
  { discriminate He. }
  exists c. split; [exact Hm|]. split; [exact Hlen|].
  apply (f_equal snd) in Hrun. simpl in Hrun. subst evs. exact Hw.
Defined.

Lemma DictionaryToParamList_escaped_safe_witness :
  "q=a+b%26c" ∈ DictionaryToParamList (Some {[ "q" := "a b&c" ]}) true
  /\ contains "&" "q=a+b%26c" = false.
Proof.
  assert (Hx : "q=a+b%26c"
               ∈ DictionaryToParamList (Some {[ "q" := "a b&c" ]}) true).
  { change (DictionaryToParamList (Some {[ "q" := "a b&c" ]}) true)
      with ["q=a+b%26c"]. apply list_elem_of_here. }
  split; [exact Hx|].
  exact (proj1 (proj2 (DictionaryToParamList_escaped_safe
                         {[ "q" := "a b&c" ]} "q=a+b%26c" Hx))).
Defined.

Lemma BuildUri_twice_witness :
  ({[ "bq" := "camera" ]} : gmap string string) <> ∅
  /\ ({[ "max-results" := "25" ]} : gmap string string) <> ∅
  /\ BuildUri (BuildUri "/base/feeds/snippets" (Some {[ "bq" := "camera" ]})
                 true) (Some {[ "max-results" := "25" ]}) true
     = "/base/feeds/snippets?bq=camera&max-results=25".
Proof.
  assert (H1 : ({[ "bq" := "camera" ]} : gmap string string) <> ∅)
    by apply insert_non_empty.
  assert (H2 : ({[ "max-results" := "25" ]} : gmap string string) <> ∅)
    by apply insert_non_empty.
  split; [exact H1|]. split; [exact H2|].
  rewrite (proj2 (BuildUri_twice "/base/feeds/snippets" {[ "bq" := "camera" ]}
                    {[ "max-results" := "25" ]} true true H1 H2)).
  reflexivity.
Defined.

Lemma relative_uri_target_witness :
  String.prefix "http://" "/feeds/snippets" = false
  /\ String.prefix "https://" "/feeds/snippets" = false
  /\ _ProcessUrl Fixture.client
       (BuildUri "/feeds/snippets" (Some {[ "bq" := "digital camera" ]}) true)
     = Ok (Some "example.com", 80%Z, false,
           "/feeds/snippets?bq=digital+camera").
Proof.
  split; [reflexivity|]. split; [reflexivity|].
  exact (proj1 (@relative_uri_target Fixture.text_elements Fixture.created
                  Fixture.client (DStr "") "/feeds/snippets" None
                  (Some {[ "bq" := "digital camera" ]}) true
                  default_content_type Fixture.world0 eq_refl eq_refl)).
Defined.



Lemma UseBasicAuth_then_requests_witness :
  heap Fixture.world0 !! 0%nat = Some {[ "User-Agent" := user_agent ]}
  /\ exists c rest,
       wire (@Put Fixture.text_elements Fixture.created Fixture.client
               (DStr "<entry/>") "/base/feeds/items/1" (Some 1%nat) None
               true default_content_type
               (UseBasicAuth Fixture.client "user" "pass" Fixture.world0).2).2
       = EndHeaders c :: rest
       /\ ("Authorization", VStr "Basic dXNlcjpwYXNz") ∈ conn_headers c.
Proof.
  assert (Hda : heap Fixture.world0 !! Fixture.client.(additional_headers)
                = Some {[ "User-Agent" := user_agent ]}) by reflexivity.
  split; [exact Hda|].
  destruct (@UseBasicAuth_then_requests Fixture.text_elements Fixture.created
              Fixture.client (DStr "<entry/>") "user" "pass"
              "/base/feeds/items/1" (Some 1%nat) None true
              default_content_type Fixture.world0 _ Hda)
    as (_ & _ & _ & (evs & Hw & Hblock) & _).
  destruct evs as [|[c|c x|c] rest]; simpl in Hblock.
  - destruct Hblock as [e He]. discriminate He.
  - exists c, rest. split; [exact Hw | exact Hblock].
  - destruct Hblock.
  - destruct Hblock.
Defined.

Lemma init_headers_witness :
  is_Some (heap Fixture.world_two_agents !! 1%nat)
  /\ exists self w' d',
       __init__ (Some "example.com") (Some 1%nat) Fixture.world_two_agents
       = (Ok self, w')
       /\ heap w' !! self.(additional_headers) = Some d'
       /\ d' !! "User-Agent" = Some user_agent.
Proof.
  assert (H : forall l, Some 1%nat = Some l ->
                is_Some (heap Fixture.world_two_agents !! l)).
  { intros l Hl. injection Hl as <-. eexists. reflexivity. }
  split; [exact (H 1%nat eq_refl)|].
  destruct (init_headers (Some "example.com") (Some 1%nat)
              Fixture.world_two_agents H)
    as (self & w' & d' & Hrun & _ & _ & _ & _ & Hd' & Hua & _).
  exists self, w', d'. split; [exact Hrun|]. split; [exact Hd' | exact Hua].
Defined.

Lemma clients_share_caller_dict_witness :
  heap Fixture.world0 !! 1%nat = Some {[ "Content-Type" := VStr "text/plain" ]}
  /\ ({[ "Content-Type" := VStr "text/plain" ]} : gmap string value) <> ∅
  /\ exists w1 w2,
       __init__ (Some "a.example.com") (Some 1%nat) Fixture.world0
       = (Ok {| server := Some "a.example.com"; port := 80; ssl := false;
                additional_headers := 1%nat |}, w1)
       /\ __init__ (Some "b.example.com") (Some 1%nat) w1
          = (Ok {| server := Some "b.example.com"; port := 80; ssl := false;
                   additional_headers := 1%nat |}, w2).
Proof.
  assert (Hd : heap Fixture.world0 !! 1%nat
               = Some {[ "Content-Type" := VStr "text/plain" ]})
    by reflexivity.
  assert (Hne : ({[ "Content-Type" := VStr "text/plain" ]}
                 : gmap string value) <> ∅) by apply insert_non_empty.
  split; [exact Hd|]. split; [exact Hne|].
  destruct (clients_share_caller_dict (Some "a.example.com")
              (Some "b.example.com") 1%nat "user" "pass" Fixture.world0 _
              Hd Hne) as (w1 & w2 & d' & H1 & H2 & _).
  exists w1, w2. split; [exact H1 | exact H2].
Defined.

Lemma UseBasicAuth_line_feed_witness :
  heap Fixture.world0 !! 0%nat = Some {[ "User-Agent" := user_agent ]}
  /\ exists value,
       (heap (UseBasicAuth Fixture.client "user" "pass" Fixture.world0).2
          !! 0%nat) ≫= (.!! "Authorization") = Some (VStr value)
       /\ (contains newline value = true <-> 57 < 9).
Proof.
  assert (Hda : heap Fixture.world0 !! Fixture.client.(additional_headers)
                = Some {[ "User-Agent" := user_agent ]}) by reflexivity.
  split; [exact Hda|].
  exact (UseBasicAuth_line_feed Fixture.client "user" "pass" Fixture.world0
           _ Hda).
Defined.

Lemma fresh_client_Get_witness :
  String.prefix "http://" "/feeds/snippets?bq=camera" = false
  /\ String.prefix "https://" "/feeds/snippets?bq=camera" = false
  /\ exists self w1 c rest,
       __init__ (Some "example.com") None Fixture.world_empty_dict
       = (Ok self, w1)
       /\ wire (@Get Fixture.created self "/feeds/snippets?bq=camera" None
                  None true w1).2 = EndHeaders c :: rest
       /\ conn_host c = Some "example.com" /\ conn_port c = 80%Z
       /\ conn_ssl c = false
       /\ ("User-Agent", user_agent) ∈ conn_headers c.
Proof.
  split; [reflexivity|]. split; [reflexivity|].
  destruct (@fresh_client_Get Fixture.created (Some "example.com")
              "/feeds/snippets?bq=camera" None None true
              Fixture.world_empty_dict eq_refl eq_refl)
    as (self & w1 & evs & Hrun & Hw & Hblock).
  exists self, w1.
  destruct (@Get Fixture.created self "/feeds/snippets?bq=camera" None None
              true w1) as [[resp|e] w2] eqn:Hget;
    destruct evs as [|[c|c x|c] rest]; simpl in Hblock;
    try (destruct Hblock as [e' He']; discriminate He');
    try (destruct Hblock; fail).
  - destruct Hblock as (_ & Hh & Hp & Hs & Hua).
    exists c, rest. split; [exact Hrun|]. split; [exact Hw|].
    split; [exact Hh|]. split; [exact Hp|]. split; [exact Hs | exact Hua].
  - exfalso. simpl in Hw.
    injection Hrun as <- <-. discriminate Hget.
  - destruct Hblock as (_ & Hh & Hp & Hs & Hua).
    exists c, rest. split; [exact Hrun|]. split; [exact Hw|].
    split; [exact Hh|]. split; [exact Hp|]. split; [exact Hs | exact Hua].
Defined.

End ExtraWitnesses.
